(** * build_search_index: a shallow embedding of [scripts/build_search_index.py]

    The script walks the versioned content tree, truncates oversized
    markdown files, reads the front matter of every remaining file, builds
    one [AlgoliaDoc] per page and replaces the search index of the version.

    Text is modelled as [string] (a sequence of 8-bit characters), file
    contents as [list byte], dictionaries and the disk as [gmap]s, and the
    effects of the script (disk, log stream, index replacement, exceptions)
    by a state-and-exception monad over a [world] record. *)

From Stdlib Require Import ZArith Ascii String List Lia DecimalString.
From Stdlib.Strings Require Import Byte.
From stdpp Require Import base option gmap list strings.

Local Open Scope string_scope.

(** ** Python [str] operations used by the script *)

Module PyStr.

(** ["\n"] *)
Definition LF : ascii := "010"%char.

(** [c in s] for a one-character [c]. *)
Fixpoint has_char (c : ascii) (s : string) : bool :=
  match s with
  | "" => false
  | String d s' => Ascii.eqb c d || has_char c s'
  end.

(** [s.startswith(p)] *)
Fixpoint startswith (p s : string) : bool :=
  match p, s with
  | "", _ => true
  | String a p', String b s' => Ascii.eqb a b && startswith p' s'
  | String _ _, "" => false
  end.

(** [sub in s]: [sub] occurs at some position of [s]. *)
Fixpoint contains (sub s : string) : bool :=
  startswith sub s ||
  match s with
  | "" => false
  | String _ s' => contains sub s'
  end.

(** [s.replace(old, new)] for a one-character [old]; both calls of the
    script pass a single character. *)
Fixpoint replace (old : ascii) (new s : string) : string :=
  match s with
  | "" => ""
  | String c s' =>
      if Ascii.eqb c old then new ++ replace old new s'
      else String c (replace old new s')
  end.

(** [s.lstrip(chars)]: drops the longest prefix made of characters of
    [chars]. *)
Fixpoint lstrip (chars s : string) : string :=
  match s with
  | "" => ""
  | String c s' => if has_char c chars then lstrip chars s' else s
  end.

(** [s.split(sep)] for a one-character [sep]. The accumulator-free form:
    the head of the result is the field that is being read. *)
Fixpoint split (sep : ascii) (s : string) : list string :=
  match s with
  | "" => [""]
  | String c s' =>
      if Ascii.eqb c sep then "" :: split sep s'
      else match split sep s' with
           | f :: fs => String c f :: fs
           | [] => [String c ""]
           end
  end.

(** [s.rfind(c)] for a one-character [c]: the highest index, or [-1]. *)
Fixpoint rfind (c : ascii) (s : string) : Z :=
  match s with
  | "" => -1
  | String d s' =>
      let r := rfind c s' in
      if (0 <=? r)%Z then (r + 1)%Z
      else if Ascii.eqb d c then 0%Z else (-1)%Z
  end.

(** [s[:n]] for [0 <= n]. *)
Fixpoint prefix (n : nat) (s : string) : string :=
  match n, s with
  | O, _ => ""
  | S n', String c s' => String c (prefix n' s')
  | S _, "" => ""
  end.

(** [repr(s)] of a string without quotes or escapes in it. *)
Definition repr (s : string) : string := "'" ++ s ++ "'".

End PyStr.

(** ** The fragment of Python's [re] that [CONTENT_REGEX] uses *)

Module Re.

(** A pattern item that consumes one character. *)
Inductive cls : Type :=
| One (c : ascii)      (* a literal character *)
| Dot.                 (* [.] *)

Inductive regex : Type :=
| Cls (k : cls)
| StarLazy (k : cls)   (* [k*?] *)
| Cat (r1 r2 : regex)
| Group (r : regex).   (* [( r )] *)

Record flags : Type := { DOTALL : bool; MULTILINE : bool }.

Definition accepts (fl : flags) (k : cls) (c : ascii) : bool :=
  match k with
  | One d => Ascii.eqb c d
  | Dot => DOTALL fl || negb (Ascii.eqb c PyStr.LF)
  end.

(** Backtracking with a continuation: [k*?] first tries to stop, and takes
    one more character only when the rest of the pattern fails. *)
Fixpoint star_lazy (fl : flags) (k : cls) (s : string)
    (cont : string -> option string) : option string :=
  match cont s with
  | Some rest => Some rest
  | None =>
      match s with
      | "" => None
      | String c s' =>
          if accepts fl k c then star_lazy fl k s' cont else None
      end
  end.

Fixpoint run (fl : flags) (r : regex) (s : string)
    (cont : string -> option string) : option string :=
  match r with
  | Cls k =>
      match s with
      | "" => None
      | String c s' => if accepts fl k c then cont s' else None
      end
  | StarLazy k => star_lazy fl k s cont
  | Cat r1 r2 => run fl r1 s (fun s' => run fl r2 s' cont)
  | Group r' => run fl r' s cont
  end.

(** A match anchored at the head of [s]; the result is what follows it. *)
Definition match_at (fl : flags) (r : regex) (s : string) : option string :=
  run fl r s Some.

(** [pattern.sub(repl, s, 0)]: leftmost non-overlapping matches, scanned
    from left to right, each replaced by [repl]. *)
Fixpoint sub_fuel (fuel : nat) (fl : flags) (r : regex) (repl s : string)
    : string :=
  match fuel with
  | O => s
  | S fuel' =>
      match match_at fl r s with
      | Some rest =>
          if (String.length rest <? String.length s)%nat
          then repl ++ sub_fuel fuel' fl r repl rest
          else (* an empty match: replace, then step over one character *)
            repl ++ match s with
                    | "" => ""
                    | String c s' => String c (sub_fuel fuel' fl r repl s')
                    end
      | None =>
          match s with
          | "" => ""
          | String c s' => String c (sub_fuel fuel' fl r repl s')
          end
      end
  end.

Definition sub (fl : flags) (r : regex) (repl s : string) : string :=
  sub_fuel (S (String.length s)) fl r repl s.

End Re.

(** ** Module constants *)

(** [re.compile(r"<(.*?)>", re.DOTALL | re.MULTILINE)] *)
Definition CONTENT_FLAGS : Re.flags := {| Re.DOTALL := true; Re.MULTILINE := true |}.

Definition CONTENT_REGEX : Re.regex :=
  Re.Cat (Re.Cls (Re.One "<"))
         (Re.Cat (Re.Group (Re.StarLazy Re.Dot)) (Re.Cls (Re.One ">"))).

Definition EXCLUDED_FILES : list string := ["gdpr-banner"; "menu"].
Definition EXCLUDED_DIRS : list string := ["main-concepts"].

(** ** [get_page_content] *)

Definition get_page_content (content : string) : string :=
  PyStr.replace "#" ""
    (PyStr.replace PyStr.LF "" (Re.sub CONTENT_FLAGS CONTENT_REGEX "" content)).

(** ** [pathlib] on POSIX path strings *)

Module PyPath.

(** [Path.name]: the final component. *)
Definition name (p : string) : string := List.last (PyStr.split "/" p) "".

(** [Path.stem]: the name without its last suffix,
    [i = name.rfind('.'); name[:i] if 0 < i < len(name) - 1 else name]. *)
Definition stem (p : string) : string :=
  let n := name p in
  let i := PyStr.rfind "." n in
  if ((0 <? i) && (i <? Z.of_nat (String.length n) - 1))%Z
  then PyStr.prefix (Z.to_nat i) n
  else n.

(** Items of a glob pattern for one path component. *)
Inductive item : Type :=
| Star                   (* [*] *)
| Lit (c : ascii)
| OneOf (cs : string).   (* [[cs]] *)

Fixpoint star (rest : string -> bool) (s : string) : bool :=
  rest s ||
  match s with
  | "" => false
  | String _ s' => star rest s'
  end.

Fixpoint fnmatch (pat : list item) (s : string) : bool :=
  match pat with
  | [] => match s with "" => true | _ => false end
  | Star :: pat' => star (fnmatch pat') s
  | Lit c :: pat' =>
      match s with
      | String d s' => Ascii.eqb c d && fnmatch pat' s'
      | "" => false
      end
  | OneOf cs :: pat' =>
      match s with
      | String d s' => PyStr.has_char d cs && fnmatch pat' s'
      | "" => false
      end
  end.

(** ["*.[mM][dD]"] *)
Definition MARKDOWN : list item := [Star; Lit "."; OneOf "mM"; OneOf "dD"].

(** ["v*"] *)
Definition VERSION : list item := [Lit "v"; Star].

(** [p] lies strictly below the directory [dir]. *)
Definition below (dir p : string) : bool := PyStr.startswith (dir ++ "/") p.

End PyPath.

(** ** Front matter values, pages and documents *)

(** The values a front-matter block can bind a key to. A float, a date or
    a set is a [VOther]: the script only tests such a value for truth and
    hands it on, so it is given by its [repr] and its truth value. *)
#[warnings="-register-all"]
Inductive value : Type :=
| VNull
| VBool (b : bool)
| VInt (z : Z)
| VStr (s : string)
| VBytes (b : list byte)
| VOther (repr : string) (truth : bool)
| VSeq (l : list value)
| VMap (m : list (string * value)).

(** Python truthiness, as tested by [if page.metadata.get("collate")]. *)
Definition truthy (v : value) : bool :=
  match v with
  | VNull => false
  | VBool b => b
  | VInt z => negb (z =? 0)%Z
  | VStr s => negb (String.eqb s "")
  | VBytes b => match b with [] => false | _ => true end
  | VOther _ truth => truth
  | VSeq l => match l with [] => false | _ => true end
  | VMap m => match m with [] => false | _ => true end
  end.

(** [frontmatter.Post]: the metadata dictionary and the body. *)
Record page : Type := { metadata : gmap string value; content : string }.

Record AlgoliaDoc : Type := {
  objectID : string;
  title : string;
  description : option string;
  categories : list string;
  doc_content : string
}.

(** ** Effects: the disk, the log stream, the index service, exceptions *)

Inductive exn : Type :=
| KeyError (key : string)
| AttributeError
| TypeError
| ValidationError
| OSError
| ParseError
| OtherError (name : string).   (* any other exception class, by its name *)

Inductive outcome (A : Type) : Type :=
| Return (a : A)
| Raise (e : exn).
Arguments Return {A} a.
Arguments Raise {A} e.

(** The disk is a tree of regular files: a path names its own bytes, there
    is no link, and a directory is there through the files below it. *)
Record world : Type := {
  disk : gmap string (list byte);            (* regular files by path *)
  log : list string;                         (* [logging.warning] records *)
  published : list (string * list AlgoliaDoc) (* [replace_all_objects] calls *)
}.

Definition M (A : Type) : Type := world -> world * outcome A.

Definition ret {A} (a : A) : M A := fun w => (w, Return a).
Definition raise {A} (e : exn) : M A := fun w => (w, Raise e).
Definition bind {A B} (m : M A) (k : A -> M B) : M B :=
  fun w => match m w with
           | (w', Return a) => k a w'
           | (w', Raise e) => (w', Raise e)
           end.

Declare Scope py_scope.
Delimit Scope py_scope with py.
Notation "x <- m ;; k" := (bind m (fun x => k))
  (at level 100, m at next level, right associativity) : py_scope.
Notation "m ;; k" := (bind m (fun _ => k))
  (at level 100, right associativity) : py_scope.
Local Open Scope py_scope.

(** [try: body except KeyError as err: handler(err)] *)
Definition try_except_KeyError {A} (body : M A) (handler : string -> M A) : M A :=
  fun w => match body w with
           | (w', Raise (KeyError k)) => handler k w'
           | r => r
           end.

(** [logging.warning(msg)] *)
Definition logging_warning (msg : string) : M unit :=
  fun w => ({| disk := disk w; log := log w ++ [msg]; published := published w |},
            Return tt).

(** [open(file)] followed by reading it. *)
Definition read_file (file : string) : M (list byte) :=
  fun w => match disk w !! file with
           | Some c => (w, Return c)
           | None => (w, Raise OSError)
           end.

(** [file.stat().st_size] *)
Definition stat_size (file : string) : M Z :=
  c <- read_file file ;; ret (Z.of_nat (length c)).

(** The bytes of a file after [f.truncate(size)]: cut, or padded with zeros. *)
Definition truncated (size : Z) (c : list byte) : list byte :=
  take (Z.to_nat size) c ++ replicate (Z.to_nat size - length c) x00.

(** [with open(file, "r+b") as f: f.truncate(size)], on a regular file
    whose path is the only name of its bytes. *)
Definition truncate (file : string) (size : Z) : M unit :=
  fun w => match disk w !! file with
           | Some c =>
               ({| disk := <[file := truncated size c]> (disk w);
                   log := log w; published := published w |}, Return tt)
           | None => (w, Raise OSError)
           end.

(** The calls of the script into the search client library. The service
    is outside the program: each call either goes through or raises, and
    the library says which. *)
Module Algolia.
Record library : Type := {
  (* [SearchClient.create(app_id, api_key)] *)
  create : option string -> option string -> option exn;
  (* [client.init_index(name)] *)
  init_index : string -> option exn;
  (* [index.replace_all_objects(docs, {"safe": False})] *)
  replace_all_objects : string -> list AlgoliaDoc -> option exn
}.
End Algolia.

(** A call into a library: it raises the exception, if there is one. *)
Definition attempt (failure : option exn) : M unit :=
  match failure with
  | Some e => raise e
  | None => ret tt
  end.

(** The objects of the index called [name] replaced by [docs]. *)
Definition replace_all_objects (name : string) (docs : list AlgoliaDoc) : M unit :=
  fun w => ({| disk := disk w; log := log w;
               published := published w ++ [(name, docs)] |}, Return tt).

(** The paths on the disk, in the order the file system lists them. *)
Definition listing (w : world) : list string := (map_to_list (disk w)).*1.

(** [version.rglob(pat)], on a tree in which no directory has a name that
    matches [pat]: the files below [version] whose name does. *)
Definition rglob (version : string) (pat : list PyPath.item) : M (list string) :=
  fun w => (w, Return (List.filter
                         (fun p => PyPath.below version p
                                   && PyPath.fnmatch pat (PyPath.name p))
                         (listing w))).

(** The entry of [dir] through which [p] is reached. *)
Definition child_of (dir p : string) : string :=
  dir ++ "/" ++
  List.hd "" (PyStr.split "/" (string_of_list_ascii
       (drop (S (String.length dir)) (list_ascii_of_string p)))).

(** [Path(dir).glob(pat)] *)
Definition glob (dir : string) (pat : list PyPath.item) : M (list string) :=
  fun w => (w, Return (remove_dups
      (List.filter (fun v => PyPath.fnmatch pat (PyPath.name v))
         (List.map (child_of dir)
            (List.filter (PyPath.below dir) (listing w)))))).

(** ** The pipeline *)

Section Pipeline.

(** [frontmatter.load] on the bytes of a file: the page, or the exception
    the library raises (undecodable text, malformed metadata block). *)
Variable frontmatter_load : list byte -> outcome page.

(** The validation pydantic applies to a field declared [str]: the
    accepted string, or [None] for a validation error. *)
Variable str_validator : value -> option string.

(** [os.environ.get("ALGOLIA_INDEX")] *)
Variable ALGOLIA_INDEX : option string.

(** [os.environ.get("ALGOLIA_CLIENT_ID")], [os.environ.get("ALGOLIA_ADMIN_KEY")] *)
Variable ALGOLIA_CLIENT_ID : option string.
Variable ALGOLIA_ADMIN_KEY : option string.

(** [algoliasearch], as the script calls it. *)
Variable algolia : Algolia.library.

(** [page.metadata[key]] *)
Definition getitem (md : gmap string value) (key : string) : M value :=
  match md !! key with
  | Some v => ret v
  | None => raise (KeyError key)
  end.

(** [page.metadata.get(key)] *)
Definition get (md : gmap string value) (key : string) : value :=
  default VNull (md !! key).

(** [v.lstrip("/").split("/")]: [bytes] has the method but refuses a
    [str] argument, the other kinds have no such method. *)
Definition lstrip_split (v : value) : M (list string) :=
  match v with
  | VStr s => ret (PyStr.split "/" (PyStr.lstrip "/" s))
  | VBytes _ => raise TypeError
  | _ => raise AttributeError
  end.

(** A field declared [Optional[str]]. *)
Definition optional_str_validator (v : value) : option (option string) :=
  match v with
  | VNull => Some None
  | _ => Some <$> str_validator v
  end.

(** [AlgoliaDoc(objectID=..., title=..., description=..., categories=...,
    content=...)]: every field goes through the validator of its declared
    type; one rejected field makes the construction raise. *)
Definition AlgoliaDoc_init (objectID_ title_ description_ : value)
    (categories_ : list string) (content_ : string) : M AlgoliaDoc :=
  match str_validator objectID_, str_validator title_,
        optional_str_validator description_,
        mapM (fun c => str_validator (VStr c)) categories_,
        str_validator (VStr content_) with
  | Some o, Some t, Some d, Some cs, Some c =>
      ret {| objectID := o; title := t; description := d;
             categories := cs; doc_content := c |}
  | _, _, _, _, _ => raise ValidationError
  end.

Definition warning_message (file key : string) : string :=
  "Error processing file at " ++ file ++ " - [" ++ PyStr.repr key
    ++ "]. Skipping...".

Definition get_algolia_doc_from_file (file : string) : M (option AlgoliaDoc) :=
  try_except_KeyError
    (f <- read_file file ;;
     match frontmatter_load f with
     | Raise e => raise e
     | Return page =>
         if truthy (get (metadata page) "collate") then ret None
         else
           objectID_ <- getitem (metadata page) "slug" ;;
           title_ <- getitem (metadata page) "title" ;;
           let description_ := get (metadata page) "description" in
           slug <- getitem (metadata page) "slug" ;;
           categories_ <- lstrip_split slug ;;
           let content_ := get_page_content (content page) in
           doc <- AlgoliaDoc_init objectID_ title_ description_
                    categories_ content_ ;;
           ret (Some doc)
     end)
    (fun key =>
       logging_warning (warning_message file key) ;;
       ret None).

(** [f"{ALGOLIA_INDEX}-{version}"] *)
Definition build_algolia_index_name (version : string) : string :=
  default "None" ALGOLIA_INDEX ++ "-" ++ version.

(** The test guarding the body of the loop of [build_index]. *)
Definition candidate (file : string) : bool :=
  negb (bool_decide (PyPath.stem file ∈ EXCLUDED_FILES))
  && negb (existsb (fun substring => PyStr.contains substring file)
                   EXCLUDED_DIRS).

(** The [for file in version.rglob(...)] loop of [build_index], over the
    files the generator yields, with [results] as accumulated so far. *)
Fixpoint collect (files : list string) (results : list string)
    : M (list string) :=
  match files with
  | [] => ret results
  | file :: files' =>
      if negb (bool_decide (PyPath.stem file ∈ EXCLUDED_FILES)) then
        if negb (existsb (fun substring => PyStr.contains substring file)
                         EXCLUDED_DIRS) then
          size <- stat_size file ;;
          (if (size >? 100000)%Z then truncate file 100000 else ret tt) ;;
          collect files' (results ++ [file])
        else collect files' results
      else collect files' results
  end.

(** [[json.loads(doc.json()) for doc in algolia_docs if doc]]: the
    generator runs [get_algolia_doc_from_file] page by page. *)
Fixpoint extract (results : list string) : M (list AlgoliaDoc) :=
  match results with
  | [] => ret []
  | page :: results' =>
      doc <- get_algolia_doc_from_file page ;;
      docs <- extract results' ;;
      ret (match doc with Some d => d :: docs | None => docs end)
  end.

(** Lines 99-106 of [build_index]: [results] once the loop is over. *)
Definition collector (version : string) : M (list string) :=
  files <- rglob version PyPath.MARKDOWN ;;
  collect files [].

(** Lines 108-121 of [build_index]: the documents of the collected pages
    are built, the client is created, the index of the version is selected
    and its objects are replaced. *)
Definition index_pages (version : string) (results : list string) : M unit :=
  docs <- extract results ;;
  attempt (Algolia.create algolia ALGOLIA_CLIENT_ID ALGOLIA_ADMIN_KEY) ;;
  attempt (Algolia.init_index algolia
             (build_algolia_index_name (PyPath.name version))) ;;
  attempt (Algolia.replace_all_objects algolia
             (build_algolia_index_name (PyPath.name version)) docs) ;;
  replace_all_objects (build_algolia_index_name (PyPath.name version)) docs.

Definition build_index (version : string) : M unit :=
  results <- collector version ;;
  index_pages version results.

Fixpoint for_each (versions : list string) : M unit :=
  match versions with
  | [] => ret tt
  | version :: versions' => build_index version ;; for_each versions'
  end.

Definition build_indexes : M unit :=
  versions <- glob "content" PyPath.VERSION ;;
  for_each versions.

End Pipeline.

(** What follows the first [c] of [s]. *)
Fixpoint after_char (c : ascii) (s : string) : option string :=
  match s with
  | "" => None
  | String d s' => if Ascii.eqb d c then Some s' else after_char c s'
  end.

(** What precedes the first [c] of [s] (all of [s] when there is none). *)
Fixpoint before_char (c : ascii) (s : string) : string :=
  match s with
  | "" => ""
  | String d s' => if Ascii.eqb d c then "" else String d (before_char c s')
  end.

(** ** A sample instance

    A reader for plain front matter, two validators, a client library whose
    calls all go through, and a small content tree; they instantiate the
    parameters of the pipeline in the examples.

    The reader follows [frontmatter.load] with its YAML handler on the
    texts it knows: the text is stripped; a first line of three dashes or
    more opens the block and the next such line closes it; the block is a
    mapping of [key: value] lines, or a scalar, which leaves the metadata
    empty; the body is stripped. A value is a null, a boolean in one of the
    YAML 1.1 spellings, a decimal integer, a plain string of letters,
    digits, spaces and [/ - _ .], a [!!bool] word or a [!!binary] base64
    text. On any other text the reader raises
    [ParseError]; the examples stay within the texts it knows. *)

Module Sample.

Definition text (lines : list string) : string :=
  String.concat (String PyStr.LF "") lines.

Definition file (lines : list string) : list byte :=
  list_byte_of_string (text lines).

Definition between (lo hi c : ascii) : bool :=
  (nat_of_ascii lo <=? nat_of_ascii c)%nat && (nat_of_ascii c <=? nat_of_ascii hi)%nat.

Definition is_letter (c : ascii) : bool := between "a" "z" c || between "A" "Z" c.
Definition is_digit (c : ascii) : bool := between "0" "9" c.

(** Space, tab, line feed, vertical tab, form feed, carriage return. *)
Definition WHITESPACE : string :=
  String " " (String "009" (String "010" (String "011" (String "012"
    (String "013" ""))))).

Fixpoint all_chars (p : ascii -> bool) (s : string) : bool :=
  match s with
  | "" => true
  | String c s' => p c && all_chars p s'
  end.

(** [s.rstrip(chars)] *)
Fixpoint rstrip (chars s : string) : string :=
  match s with
  | "" => ""
  | String c s' =>
      match rstrip chars s' with
      | "" => if PyStr.has_char c chars then "" else String c ""
      | r => String c r
      end
  end.

(** [s.strip()] *)
Definition strip (s : string) : string :=
  rstrip WHITESPACE (PyStr.lstrip WHITESPACE s).

(** The boundary [^-{3,}\s*$]. *)
Definition boundary (line : string) : bool :=
  PyStr.startswith "---" line
  && all_chars (fun c => PyStr.has_char c WHITESPACE) (PyStr.lstrip "-" line).

Definition mem (s : string) (l : list string) : bool :=
  existsb (String.eqb s) l.

Definition NULLS : list string := [""; "~"; "null"; "Null"; "NULL"].
Definition TRUES : list string :=
  ["yes"; "Yes"; "YES"; "true"; "True"; "TRUE"; "on"; "On"; "ON"].
Definition FALSES : list string :=
  ["no"; "No"; "NO"; "false"; "False"; "FALSE"; "off"; "Off"; "OFF"].

Definition plain_char (c : ascii) : bool :=
  is_letter c || is_digit c || PyStr.has_char c "/-_. ".

(** A plain scalar that YAML resolves to a string: it starts with a letter
    or a slash and is none of the words above. *)
Definition plain_string (s : string) : bool :=
  match s with
  | "" => false
  | String c _ =>
      (is_letter c || Ascii.eqb c "/") && all_chars plain_char s
      && negb (mem s NULLS || mem s TRUES || mem s FALSES)
  end.

Fixpoint number (s : string) (acc : Z) : Z :=
  match s with
  | "" => acc
  | String c s' => number s' (10 * acc + Z.of_nat (nat_of_ascii c) - 48)%Z
  end.

(** [0], or digits that do not start with [0]. *)
Definition decimal (s : string) : bool :=
  match s with
  | "" => false
  | String c s' =>
      all_chars is_digit s && (negb (Ascii.eqb c "0") || String.eqb s' "")
  end.

(** Base64, four characters to three bytes. *)
Definition sextet (c : ascii) : option N :=
  let n := N_of_ascii c in
  if between "A" "Z" c then Some (n - 65)%N
  else if between "a" "z" c then Some (n - 71)%N
  else if between "0" "9" c then Some (n + 4)%N
  else if Ascii.eqb c "+" then Some 62%N
  else if Ascii.eqb c "/" then Some 63%N
  else None.

Definition octet (n : N) : byte :=
  default x00 (Byte.of_N (n mod 256)%N).

Fixpoint base64 (fuel : nat) (s : string) : option (list byte) :=
  match fuel, s with
  | _, "" => Some []
  | S fuel', String a (String b (String c (String d rest))) =>
      match sextet a, sextet b with
      | Some x, Some y =>
          let first := octet (x * 4 + y / 16) in
          match sextet c, sextet d, rest with
          | Some z, Some t, _ =>
              tail ← base64 fuel' rest;
              Some (first :: octet (y * 16 + z / 4) :: octet (z * 64 + t) :: tail)
          | Some z, None, "" =>
              if Ascii.eqb d "=" then Some [first; octet (y * 16 + z / 4)]
              else None
          | None, None, "" =>
              if Ascii.eqb c "=" && Ascii.eqb d "=" then Some [first] else None
          | _, _, _ => None
          end
      | _, _ => None
      end
  | _, _ => None
  end.

(** What a value is before it is constructed. *)
Inductive scalar : Type :=
| Constructed (v : value)
| BoolOf (word : string).      (* [!!bool word] *)

Definition value_of (s : string) : option scalar :=
  if mem s NULLS then Some (Constructed VNull)
  else if mem s TRUES then Some (Constructed (VBool true))
  else if mem s FALSES then Some (Constructed (VBool false))
  else if decimal s then Some (Constructed (VInt (number s 0)))
  else if plain_string s then Some (Constructed (VStr s))
  else if PyStr.startswith "!!bool " s then
    let word := PyStr.lstrip " " (string_of_list_ascii (drop 6 (list_ascii_of_string s))) in
    if all_chars (between "a" "z") word && negb (String.eqb word "")
    then Some (BoolOf word) else None
  else if PyStr.startswith "!!binary " s then
    let data := PyStr.lstrip " " (string_of_list_ascii (drop 8 (list_ascii_of_string s))) in
    if String.eqb data "" then None
    else b ← base64 (String.length data) data; Some (Constructed (VBytes b))
  else None.

(** A key is a word that starts with a letter. *)
Definition key_of (s : string) : option string :=
  if plain_string s && negb (PyStr.has_char " " s) && negb (PyStr.has_char "/" s)
     && negb (PyStr.has_char "." s)
  then Some s else None.

(** [key: value], or [key:] for a null. *)
Definition entry (line : string) : option (string * scalar) :=
  match after_char ":" line with
  | Some rest =>
      if String.eqb rest "" || PyStr.startswith " " rest then
        k ← key_of (before_char ":" line);
        v ← value_of (PyStr.lstrip " " rest);
        Some (k, v)
      else None
  | None => None
  end.

(** The lines of the block up to the closing boundary, and the lines
    after it. *)
Fixpoint block (lines : list string) : option (list string * list string) :=
  match lines with
  | [] => None
  | l :: ls =>
      if boundary l then Some ([], ls)
      else '(b, body) ← block ls; Some (l :: b, body)
  end.

(** The composed document: the entries of a mapping, in order. *)
Fixpoint compose (lines : list string) : option (list (string * scalar)) :=
  match lines with
  | [] => Some []
  | l :: ls =>
      let l := rstrip WHITESPACE l in
      if String.eqb l "" then compose ls
      else e ← entry l; es ← compose ls; Some (e :: es)
  end.

(** The constructed mapping: a later key replaces an earlier one, and a
    [!!bool] word that is no boolean raises the [KeyError] of the lookup in
    the table of booleans. *)
Fixpoint construct (entries : list (string * scalar)) (md : gmap string value)
    : outcome (gmap string value) :=
  match entries with
  | [] => Return md
  | (k, Constructed v) :: es => construct es (<[k := v]> md)
  | (k, BoolOf word) :: es =>
      if mem word TRUES then construct es (<[k := VBool true]> md)
      else if mem word FALSES then construct es (<[k := VBool false]> md)
      else Raise (KeyError word)
  end.

(** A block that is one plain scalar over some lines: each line is empty
    or starts with a letter or a slash and holds plain characters only. *)
Definition scalar_block (lines : list string) : bool :=
  forallb (fun l => match rstrip WHITESPACE l with
                    | "" => true
                    | String c l' =>
                        (is_letter c || Ascii.eqb c "/")
                        && all_chars plain_char (String c l')
                    end) lines.

Definition load (c : list byte) : outcome page :=
  let s := strip (string_of_list_byte c) in
  match PyStr.split PyStr.LF s with
  | first :: ls =>
      if boundary first then
        match block ls with
        | Some (b, body) =>
            match compose b with
            | Some entries =>
                match construct entries ∅ with
                | Return md => Return {| metadata := md; content := strip (text body) |}
                | Raise e => Raise e
                end
            | None =>
                if scalar_block b
                then Return {| metadata := ∅; content := strip (text body) |}
                else Raise ParseError
            end
        | None => Return {| metadata := ∅; content := s |}
        end
      else if String.eqb first "{" || PyStr.startswith "+++" first
      then Raise ParseError
      else Return {| metadata := ∅; content := s |}
  | [] => Return {| metadata := ∅; content := s |}
  end.

(** Validation that accepts a string and nothing else. *)
Definition strict_str (v : value) : option string :=
  match v with VStr s => Some s | _ => None end.

(** Validation that also takes a number, a boolean or bytes and turns it
    into the string [str] gives, as pydantic 1 does for a [str] field. *)
Definition lax_str (v : value) : option string :=
  match v with
  | VStr s => Some s
  | VInt z => Some (NilZero.string_of_int (Z.to_int z))
  | VBool b => Some (if b then "True" else "False")
  | VBytes b => Some (string_of_list_byte b)
  | _ => None
  end.

(** A client library whose calls all go through. *)
Definition service : Algolia.library :=
  {| Algolia.create := fun _ _ => None;
     Algolia.init_index := fun _ => None;
     Algolia.replace_all_objects := fun _ _ => None |}.

Definition files : gmap string (list byte) :=
  list_to_map
    [("content/v1.0.0/intro.md",
       file ["---"; "slug: /docs/intro"; "title: Intro"; "---";
             "# Hello <span>world</span>"; "text"]);
     ("content/v1.0.0/untitled.md",
       file ["---"; "slug: /docs/untitled"; "---"; "body"]);
     ("content/v1.0.0/internal.md",
       file ["---"; "collate: true"; "---"; "body"]);
     ("content/v1.0.0/menu.md",
       file ["---"; "slug: /menu"; "title: Menu"; "---"; "body"]);
     ("content/v1.0.0/main-concepts/metadata.md",
       file ["---"; "slug: /main-concepts/metadata"; "title: M"; "---"; ""]);
     ("content/v1.0.0/main-concepts-overview.md",
       file ["---"; "slug: /overview"; "title: O"; "---"; ""]);
     ("content/images/logo.png", [x00])].

Definition start : world := {| disk := files; log := []; published := [] |}.
End Sample.

(** ** Vocabulary of the statements *)

Module Re_search.
End Re_search.

(** Some ["<"] of [s] has a [">"] after it: [s] holds an angle-bracket span. *)
Fixpoint has_span (s : string) : bool :=
  match s with
  | "" => false
  | String c s' => Ascii.eqb c "<" && PyStr.has_char ">" s' || has_span s'
  end.

(** The text with every angle-bracket span removed, as the specification
    words it: a span runs from a ["<"] to the nearest [">"] after it, the
    spans are taken from left to right, and what lies outside them stays. *)
Inductive strip_spans : string -> string -> Prop :=
| strip_none s :
    has_span s = false -> strip_spans s s
| strip_one t u r r' :
    PyStr.has_char "<" t = false ->
    PyStr.has_char ">" u = false ->
    strip_spans r r' ->
    strip_spans (t ++ String "<" (u ++ String ">" r)) (t ++ r').

(** The text without the characters that satisfy [drop]. *)
Fixpoint discard (drop : ascii -> bool) (s : string) : string :=
  match s with
  | "" => ""
  | String c s' => if drop c then discard drop s' else String c (discard drop s')
  end.

(** A newline or a heading marker. *)
Definition newline_or_hash (c : ascii) : bool :=
  Ascii.eqb c PyStr.LF || Ascii.eqb c "#".

(** The continuation of [.*?] inside [CONTENT_REGEX]: a [">"] and the end. *)
Definition close_span (s : string) : option string :=
  Re.run CONTENT_FLAGS (Re.Cls (Re.One ">")) s Some.

(** The bytes the collector leaves in a file that held [c]. *)
Definition capped (c : list byte) : list byte :=
  if (Z.of_nat (length c) >? 100000)%Z then truncated 100000 c else c.

(** The files [version.rglob("*.[mM][dD]")] yields. *)
Definition markdown_below (version file : string) : bool :=
  PyPath.below version file
  && PyPath.fnmatch PyPath.MARKDOWN (PyPath.name file).

(** The world after one more warning. *)
Definition warn (w : world) (msg : string) : world :=
  {| disk := disk w; log := log w ++ [msg]; published := published w |}.

(** The categories as the specification words them: one leading separator
    removed, the rest split on the separator. *)
Definition strip_one_leading (sep : ascii) (s : string) : string :=
  match s with
  | String c s' => if Ascii.eqb c sep then s' else s
  | "" => ""
  end.

Definition categories_spec (slug : string) : list string :=
  PyStr.split "/" (strip_one_leading "/" slug).

(** The run started in [w0] comes to the page [file] in the world [w]:
    the versions before the one of [file] are indexed, the collector of
    that version has run, and the pages before [file] are extracted. *)
Definition reaches (frontmatter_load : list byte -> outcome page)
    (str_validator : value -> option string)
    (ALGOLIA_INDEX ALGOLIA_CLIENT_ID ALGOLIA_ADMIN_KEY : option string)
    (algolia : Algolia.library)
    (w0 : world) (file : string) (w : world) : Prop :=
  exists (before after : list string) (version : string) (wv w1 : world)
         (done rest : list string) (docs : list AlgoliaDoc),
    glob "content" PyPath.VERSION w0
      = (w0, Return (before ++ version :: after)%list)
    /\ for_each frontmatter_load str_validator ALGOLIA_INDEX
         ALGOLIA_CLIENT_ID ALGOLIA_ADMIN_KEY algolia before w0
       = (wv, Return tt)
    /\ collector version wv = (w1, Return (done ++ file :: rest)%list)
    /\ extract frontmatter_load str_validator done w1 = (w, Return docs).

(** Worlds for the examples: one file, and a tree of two versions whose
    second holds a page with a malformed block (a second [: ] in a plain
    value, which YAML refuses). *)
Module SampleWorlds.

Definition single (path : string) (lines : list string) : world :=
  {| disk := {[ path := Sample.file lines ]}; log := []; published := [] |}.

Definition flagged : world :=
  single "content/v1.0.0/internal.md" ["---"; "collate: true"; "---"; "body"].

Definition null_title : world :=
  single "content/v1.0.0/draft.md" ["---"; "title: null"; "---"; "body"].

Definition numeric_slug : world :=
  single "content/v1.0.0/page.md"
    ["---"; "slug: 12"; "title: Twelve"; "---"; "body"].

Definition double_slash : world :=
  single "content/v1.0.0/guides.md"
    ["---"; "slug: //guides"; "title: Guides"; "---"; "body"].

Definition nested : world :=
  single "content/v1.0.0/c.md"
    ["---"; "slug: /a/b/c"; "title: C"; "---"; "body"].

Definition untitled : world :=
  single "content/v1.0.0/untitled.md"
    ["---"; "slug: /docs/untitled"; "---"; "body"].

(** A page whose [collate] value is tagged as a boolean and is none. *)
Definition mistagged : world :=
  single "content/v1.0.0/maybe.md"
    ["---"; "slug: /docs/maybe"; "title: Maybe"; "collate: !!bool maybe";
     "---"; "body"].

(** A flagged page whose slug is a number. *)
Definition flagged_numeric : world :=
  single "content/v1.0.0/internal.md"
    ["---"; "collate: true"; "slug: 12"; "title: Twelve"; "---"; "body"].

(** A page whose slug is given in base64, which makes it bytes. *)
Definition binary_slug : world :=
  single "content/v1.0.0/bin.md"
    ["---"; "slug: !!binary L2RvY3M="; "title: Binary"; "---"; "body"].

(** A page whose title is a number. *)
Definition numeric_title : world :=
  single "content/v1.0.0/year.md"
    ["---"; "slug: /docs/year"; "title: 2021"; "---"; "body"].

Definition broken : world :=
  {| disk := list_to_map
       [("content/v1.0.0/intro.md",
          Sample.file ["---"; "slug: /docs/intro"; "title: Intro"; "---"; "text"]);
        ("content/v2.0.0/intro.md",
          Sample.file ["---"; "slug: /docs/intro"; "title: Intro"; "---"; "text"]);
        ("content/v2.0.0/broken.md",
          Sample.file ["---"; "slug: /docs/broken"; "title: Broken: page";
                       "---"; "body"])];
     log := []; published := [] |}.

(** The world in which the run over [broken] stops: the
    first version is published, the second is not. *)
Definition broken_stop : world :=
  {| disk := disk broken;
     log := [];
     published :=
       [("DOCS-v1.0.0",
         [{| objectID := "/docs/intro"; title := "Intro";
             description := None; categories := ["docs"; "intro"];
             doc_content := "text" |}])] |}.

End SampleWorlds.

(** ** Vocabulary of the further properties *)

(** [s] is [t] with some of its characters left out. *)
Inductive subseq : string -> string -> Prop :=
| subseq_nil : subseq "" ""
| subseq_skip c s t : subseq s t -> subseq s (String c t)
| subseq_keep c s t : subseq s t -> subseq (String c s) (String c t).

(** [w'] differs from [w] as a run allows: every file is there as it was
    or capped, no file is new, and the log and the list of index
    replacements have only grown. *)
Definition evolves (w w' : world) : Prop :=
  (forall p, disk w' !! p = disk w !! p \/ disk w' !! p = capped <$> disk w !! p)
  /\ log w `prefix_of` log w'
  /\ published w `prefix_of` published w'.

(** The world after one more index replacement. *)
Definition publish (w : world) (name : string) (docs : list AlgoliaDoc) : world :=
  {| disk := disk w; log := log w; published := published w ++ [(name, docs)] |}.

(** The four suffixes ["*.[mM][dD]"] accepts. *)
Definition MARKDOWN_SUFFIXES : list string := [".md"; ".mD"; ".Md"; ".MD"].

(** The exception an outcome carries, if any. *)
Definition raised {A : Type} (r : outcome A) : option exn :=
  match r with
  | Raise e => Some e
  | Return _ => None
  end.

(** [p] is a directory of the tree: some file lies below it. *)
Definition directory (w : world) (p : string) : Prop :=
  exists q, is_Some (disk w !! q) /\ PyPath.below p q = true.

(** The directories above [p]: what comes before each of its separators. *)
Fixpoint parents (p : string) : list string :=
  match p with
  | "" => []
  | String c p' =>
      ((if Ascii.eqb c "/" then [""] else []) ++ List.map (String c) (parents p'))%list
  end.

(** A version that holds only an excluded page. *)
Definition only_menu : world :=
  SampleWorlds.single "content/v1.0.0/menu.md"
    ["---"; "slug: /menu"; "title: Menu"; "---"; "body"].

(** ** Strings *)

#[local] Arguments Ascii.eqb : simpl never.

Lemma append_nil_l (t : string) : "" ++ t = t.
Proof. reflexivity. Qed.

Lemma append_cons (c : ascii) (s t : string) :
  String c s ++ t = String c (s ++ t).
Proof. reflexivity. Qed.

Ltac unfold_append := rewrite ?append_cons, ?append_nil_l in *.

Lemma append_nil_r (s : string) : s ++ "" = s.
Proof. induction s as [|c s IH]; unfold_append; congruence. Qed.

Lemma append_assoc (s t u : string) : (s ++ t) ++ u = s ++ (t ++ u).
Proof. induction s as [|c s IH]; unfold_append; congruence. Qed.

Lemma length_append (s t : string) :
  String.length (s ++ t) = (String.length s + String.length t)%nat.
Proof.
  induction s as [|c s IH]; unfold_append; simpl; [reflexivity | now rewrite IH].
Qed.

Lemma ascii_eqb_sym (a b : ascii) : Ascii.eqb a b = Ascii.eqb b a.
Proof.
  destruct (Ascii.eqb_spec a b) as [->|Hne].
  - now rewrite Ascii.eqb_refl.
  - symmetry. apply Ascii.eqb_neq. congruence.
Qed.

Lemma has_char_append (c : ascii) (s t : string) :
  PyStr.has_char c (s ++ t) = PyStr.has_char c s || PyStr.has_char c t.
Proof.
  induction s as [|d s IH]; unfold_append; simpl; [reflexivity|].
  rewrite IH. now rewrite orb_assoc.
Qed.

Lemma after_char_None (c : ascii) (s : string) :
  after_char c s = None <-> PyStr.has_char c s = false.
Proof.
  induction s as [|d s IH]; simpl; [tauto|].
  rewrite (ascii_eqb_sym c d).
  destruct (Ascii.eqb d c); simpl; [split; discriminate | exact IH].
Qed.

Lemma after_char_Some (c : ascii) (s rest : string) :
  after_char c s = Some rest ->
  s = before_char c s ++ String c rest
  /\ PyStr.has_char c (before_char c s) = false.
Proof.
  revert rest. induction s as [|d s IH]; simpl; intros rest H; [discriminate|].
  destruct (Ascii.eqb_spec d c) as [->|Hne].
  - injection H as ->. split; reflexivity.
  - destruct (IH _ H) as [Heq Hno]. unfold_append. simpl. split.
    + now rewrite <- Heq.
    + rewrite Hno. rewrite orb_false_r. apply Ascii.eqb_neq. congruence.
Qed.

Lemma after_char_length (c : ascii) (s rest : string) :
  after_char c s = Some rest -> (String.length rest < String.length s)%nat.
Proof.
  revert rest. induction s as [|d s IH]; simpl; intros rest H; [discriminate|].
  destruct (Ascii.eqb d c).
  - injection H as ->. lia.
  - specialize (IH _ H). lia.
Qed.

(** The first occurrence of a character splits a string in one way only. *)
Lemma first_occurrence_unique (c : ascii) (t t' x x' : string) :
  PyStr.has_char c t = false -> PyStr.has_char c t' = false ->
  t ++ String c x = t' ++ String c x' -> t = t' /\ x = x'.
Proof.
  revert t'. induction t as [|d t IH]; intros [|d' t']; unfold_append; simpl;
    intros Ht Ht' Heq.
  - injection Heq as ->. split; reflexivity.
  - injection Heq as <- _. rewrite Ascii.eqb_refl in Ht'. discriminate.
  - injection Heq as -> _. rewrite Ascii.eqb_refl in Ht. discriminate.
  - injection Heq as -> Heq.
    apply orb_false_iff in Ht as [_ Ht]. apply orb_false_iff in Ht' as [_ Ht'].
    destruct (IH _ Ht Ht' Heq) as [-> ->]. split; reflexivity.
Qed.

(** ** Spans *)

Lemma has_span_no_gt (s : string) :
  PyStr.has_char ">" s = false -> has_span s = false.
Proof.
  induction s as [|c s IH]; simpl; [reflexivity|]. intros H.
  apply orb_false_iff in H as [_ H]. rewrite H, (IH H).
  now rewrite andb_false_r.
Qed.

Lemma has_span_append_no_lt (t s : string) :
  PyStr.has_char "<" t = false -> has_span (t ++ s) = has_span s.
Proof.
  induction t as [|c t IH]; unfold_append; simpl; [reflexivity|]. intros H.
  apply orb_false_iff in H as [Hc H]. rewrite (IH H).
  rewrite (ascii_eqb_sym c "<"), Hc. reflexivity.
Qed.

Lemma has_span_one (t u r : string) :
  PyStr.has_char "<" t = false ->
  has_span (t ++ String "<" (u ++ String ">" r)) = true.
Proof.
  intros Ht. rewrite (has_span_append_no_lt _ _ Ht). simpl.
  rewrite has_char_append. simpl. now rewrite orb_true_r.
Qed.

Lemma strip_spans_no_span (s m : string) :
  has_span s = false -> strip_spans s m -> m = s.
Proof.
  intros Hs Hm. destruct Hm as [s _|t u r r' Ht Hu Hr]; [reflexivity|].
  rewrite (has_span_one t u r Ht) in Hs. discriminate.
Qed.

(** The relation is a function: the spans of a text are determined. *)
Lemma strip_spans_functional (s m1 m2 : string) :
  strip_spans s m1 -> strip_spans s m2 -> m1 = m2.
Proof.
  intros H1. revert m2.
  induction H1 as [s Hs|t u r r' Ht Hu Hr IH]; intros m2 H2.
  - symmetry. now apply strip_spans_no_span.
  - inversion H2 as [s' Hs' E1 E2|t2 u2 r2 r2' Ht2 Hu2 Hr2 E1 E2]; subst.
    + rewrite (has_span_one t u r Ht) in Hs'. discriminate.
    + destruct (first_occurrence_unique _ _ _ _ _ Ht2 Ht E1) as [-> E].
      destruct (first_occurrence_unique _ _ _ _ _ Hu2 Hu E) as [-> ->].
      now rewrite (IH _ Hr2).
Qed.

Lemma strip_spans_result (s m : string) : strip_spans s m -> has_span m = false.
Proof.
  induction 1 as [s Hs|t u r r' Ht Hu Hr IH]; [exact Hs|].
  now rewrite has_span_append_no_lt.
Qed.

Lemma strip_spans_cons (c : ascii) (s m : string) :
  Ascii.eqb c "<" = false -> strip_spans s m ->
  strip_spans (String c s) (String c m).
Proof.
  intros Hc Hm. destruct Hm as [s Hs|t u r r' Ht Hu Hr].
  - apply strip_none. simpl. now rewrite Hc, Hs.
  - rewrite <- !append_cons.
    apply (strip_one (String c t) u r r'); try assumption.
    simpl. now rewrite (ascii_eqb_sym "<" c), Hc, Ht.
Qed.

(** ** [CONTENT_REGEX] *)

Lemma star_lazy_close (s : string) :
  Re.star_lazy CONTENT_FLAGS Re.Dot s close_span = after_char ">" s.
Proof.
  induction s as [|c s IH]; [reflexivity|].
  cbn [Re.star_lazy after_char]. unfold close_span at 1. cbn [Re.run Re.accepts].
  destruct (Ascii.eqb c ">"); [reflexivity|].
  cbn [CONTENT_FLAGS Re.DOTALL orb]. exact IH.
Qed.

(** A match of [CONTENT_REGEX] starts at a ["<"] and ends at the first
    [">"] after it, newlines included. *)
Lemma match_at_content (s : string) :
  Re.match_at CONTENT_FLAGS CONTENT_REGEX s =
  match s with
  | "" => None
  | String c s' => if Ascii.eqb c "<" then after_char ">" s' else None
  end.
Proof.
  destruct s as [|c s]; [reflexivity|].
  unfold Re.match_at, CONTENT_REGEX. cbn [Re.run Re.accepts].
  destruct (Ascii.eqb c "<"); [|reflexivity].
  apply star_lazy_close.
Qed.


(** With enough fuel the substitution removes the spans, and the fuel
    [Re.sub] starts from is enough. *)
Lemma sub_fuel_strip (fuel : nat) (s : string) :
  (String.length s < fuel)%nat ->
  strip_spans s (Re.sub_fuel fuel CONTENT_FLAGS CONTENT_REGEX "" s).
Proof.
  revert s. induction fuel as [|fuel IH]; intros s Hlen; [lia|].
  cbn [Re.sub_fuel]. rewrite match_at_content.
  destruct s as [|c s].
  - apply strip_none. reflexivity.
  - cbn [String.length] in Hlen.
    destruct (Ascii.eqb_spec c "<") as [->|Hne].
    + destruct (after_char ">" s) as [rest|] eqn:E.
      * pose proof (after_char_length _ _ _ E) as Hr.
        destruct (Nat.ltb_spec (String.length rest) (String.length (String "<" s)))
          as [_|Hge]; [|cbn [String.length] in Hge; lia].
        rewrite append_nil_l.
        destruct (after_char_Some _ _ _ E) as [Hs Hu].
        rewrite Hs at 1.
        apply (strip_one "" (before_char ">" s) rest); [reflexivity|exact Hu|].
        apply IH. lia.
      * apply after_char_None in E.
        assert (Hm : strip_spans s (Re.sub_fuel fuel CONTENT_FLAGS CONTENT_REGEX "" s))
          by (apply IH; lia).
        rewrite (strip_spans_no_span _ _ (has_span_no_gt _ E) Hm).
        apply strip_none. cbn [has_span]. rewrite E, (has_span_no_gt _ E).
        now rewrite andb_false_r.
    + apply strip_spans_cons; [now apply Ascii.eqb_neq|]. apply IH. lia.
Qed.

Lemma sub_strip (s : string) :
  strip_spans s (Re.sub CONTENT_FLAGS CONTENT_REGEX "" s).
Proof. apply sub_fuel_strip. lia. Qed.

(** ** Removing characters *)

Lemma replace_discard (old : ascii) (s : string) :
  PyStr.replace old "" s = discard (fun c => Ascii.eqb c old) s.
Proof.
  induction s as [|c s IH]; [reflexivity|]. cbn [PyStr.replace discard].
  destruct (Ascii.eqb c old); [rewrite append_nil_l|]; now rewrite IH.
Qed.

Lemma discard_discard (p q : ascii -> bool) (s : string) :
  discard q (discard p s) = discard (fun c => p c || q c) s.
Proof.
  induction s as [|c s IH]; [reflexivity|]. cbn [discard].
  destruct (p c); cbn [orb discard]; [exact IH|].
  destruct (q c); now rewrite IH.
Qed.

Lemma discard_idempotent (p : ascii -> bool) (s : string) :
  discard p (discard p s) = discard p s.
Proof.
  induction s as [|c s IH]; [reflexivity|]. cbn [discard].
  destruct (p c) eqn:E; [exact IH|]. cbn [discard]. now rewrite E, IH.
Qed.

Lemma discard_none (p : ascii -> bool) (s : string) :
  (forall c, PyStr.has_char c s = true -> p c = false) -> discard p s = s.
Proof.
  induction s as [|c s IH]; intros H; [reflexivity|]. cbn [discard].
  rewrite (H c) by (cbn [PyStr.has_char]; now rewrite Ascii.eqb_refl).
  rewrite IH; [reflexivity|]. intros d Hd. apply H. cbn [PyStr.has_char].
  rewrite Hd. apply orb_true_r.
Qed.

Lemma has_char_discard (p : ascii -> bool) (c : ascii) (s : string) :
  PyStr.has_char c (discard p s) = negb (p c) && PyStr.has_char c s.
Proof.
  induction s as [|d s IH]; [now rewrite andb_false_r|]. cbn [discard].
  destruct (p d) eqn:E; cbn [PyStr.has_char]; rewrite IH.
  - destruct (Ascii.eqb_spec c d) as [->|_]; [now rewrite E|reflexivity].
  - destruct (Ascii.eqb_spec c d) as [->|_]; [now rewrite E|reflexivity].
Qed.

Lemma has_span_discard (p : ascii -> bool) (s : string) :
  has_span s = false -> has_span (discard p s) = false.
Proof.
  induction s as [|c s IH]; [reflexivity|]. cbn [has_span discard]. intros H.
  apply orb_false_iff in H as [Hc Hs]. specialize (IH Hs).
  destruct (p c); [exact IH|]. cbn [has_span]. rewrite IH, orb_false_r.
  rewrite has_char_discard.
  destruct (Ascii.eqb c "<"); [|reflexivity]. cbn [andb] in *.
  rewrite Hc. apply andb_false_r.
Qed.

Lemma get_page_content_discard (s : string) :
  get_page_content s =
  discard newline_or_hash (Re.sub CONTENT_FLAGS CONTENT_REGEX "" s).
Proof.
  unfold get_page_content. rewrite !replace_discard, discard_discard.
  reflexivity.
Qed.

(** Text without a span, a newline or a heading marker is returned as it
    is: list bullets, emphasis markers and link syntax are kept. *)
Lemma get_page_content_plain (s : string) :
  has_span s = false ->
  PyStr.has_char PyStr.LF s = false ->
  PyStr.has_char "#" s = false ->
  get_page_content s = s.
Proof.
  intros Hs Hn Hh. rewrite get_page_content_discard.
  rewrite (strip_spans_no_span _ _ Hs (sub_strip s)).
  apply discard_none. intros c Hc. unfold newline_or_hash.
  destruct (Ascii.eqb_spec c PyStr.LF) as [->|_]; [congruence|].
  destruct (Ascii.eqb_spec c "#") as [->|_]; [congruence|reflexivity].
Qed.

(** C4. For every body text, [get_page_content] returns the text with every
    angle-bracket span removed (a span may run over newlines), and then
    every newline and every ["#"] removed, and nothing else changed: the
    result is exactly what [strip_spans] leaves, minus those two
    characters. On a sample, the bullet, the emphasis markers and the link
    syntax stay while a two-line tag, the newlines and the heading marker
    go. *)
Theorem get_page_content_spec :
  (forall content : string,
     exists stripped : string,
       strip_spans content stripped
       /\ get_page_content content = discard newline_or_hash stripped)
  /\ get_page_content
       ("## Title" ++ String PyStr.LF
          ("- *item* with [a link](page) <Tag a" ++ String PyStr.LF
             "b>and _more_</Tag>"))
     = " Title- *item* with [a link](page) and _more_".
Proof.
  split.
  - intros content. exists (Re.sub CONTENT_FLAGS CONTENT_REGEX "" content).
    split; [apply sub_strip | apply get_page_content_discard].
  - vm_compute. reflexivity.
Qed.


(** ** The collector *)

Lemma truncated_long (size : Z) (c : list byte) :
  (size <= Z.of_nat (length c))%Z ->
  truncated size c = take (Z.to_nat size) c.
Proof.
  intros H. unfold truncated.
  replace (Z.to_nat size - length c)%nat with 0%nat by lia.
  apply app_nil_r.
Qed.

Lemma truncated_length (size : Z) (c : list byte) :
  (0 <= size)%Z -> Z.of_nat (length (truncated size c)) = size.
Proof.
  intros H. unfold truncated.
  rewrite length_app, length_take, length_replicate. lia.
Qed.

Lemma capped_idempotent (c : list byte) : capped (capped c) = capped c.
Proof.
  unfold capped.
  destruct (Z.gtb_spec (Z.of_nat (length c)) 100000) as [Hgt|Hle].
  - rewrite truncated_length by lia. reflexivity.
  - destruct (Z.gtb_spec (Z.of_nat (length c)) 100000); [lia|reflexivity].
Qed.

Section Collector.

Lemma candidate_stem (file : string) :
  candidate file = true -> PyPath.stem file ∉ EXCLUDED_FILES.
Proof.
  unfold candidate. intros H. apply andb_true_iff in H as [H _].
  apply negb_true_iff in H. now apply bool_decide_eq_false in H.
Qed.

Lemma candidate_dirs (file substring : string) :
  candidate file = true -> substring ∈ EXCLUDED_DIRS ->
  PyStr.contains substring file = false.
Proof.
  unfold candidate. intros H Hin. apply andb_true_iff in H as [_ H].
  apply negb_true_iff in H.
  destruct (PyStr.contains substring file) eqn:E; [|reflexivity].
  assert (Hex : existsb (fun s => PyStr.contains s file) EXCLUDED_DIRS = true).
  { apply existsb_exists. exists substring. split; [|exact E].
    now apply list_elem_of_In. }
  congruence.
Qed.

(** The loop keeps the candidates, in order, and caps each of them on the
    disk; nothing else changes. *)
Lemma collect_spec (files : list string) :
  forall (results : list string) (w : world),
    (forall f, f ∈ files -> is_Some (disk w !! f)) ->
    exists w',
      collect files results w
        = (w', Return (results ++ List.filter candidate files)%list)
      /\ log w' = log w /\ published w' = published w
      /\ forall p, disk w' !! p =
           if bool_decide (p ∈ List.filter candidate files)
           then capped <$> disk w !! p else disk w !! p.
Proof.
  induction files as [|f fs IH]; intros results w Hex.
  - exists w. cbn. rewrite app_nil_r. repeat split; try reflexivity.
  - assert (Hfs : forall w1, (forall p, is_Some (disk w !! p) -> is_Some (disk w1 !! p)) ->
              forall g, g ∈ fs -> is_Some (disk w1 !! g)).
    { intros w1 H1 g Hg. apply H1, Hex. now right. }
    cbn [collect List.filter].
    assert (Hcand : candidate f =
              negb (bool_decide (PyPath.stem f ∈ EXCLUDED_FILES))
              && negb (existsb (fun s => PyStr.contains s f) EXCLUDED_DIRS))
      by reflexivity.
    destruct (negb (bool_decide (PyPath.stem f ∈ EXCLUDED_FILES)));
      [destruct (negb (existsb (fun s => PyStr.contains s f) EXCLUDED_DIRS))|];
      cbn [andb] in Hcand; rewrite Hcand;
      try (apply IH; apply (Hfs w); auto).
    destruct (Hex f) as [c Hc]; [now left|].
    unfold bind at 1. unfold stat_size, bind at 1. unfold read_file. rewrite Hc.
    cbn [ret]. unfold bind at 1.
    set (w1 := if (Z.of_nat (length c) >? 100000)%Z
               then {| disk := <[f := truncated 100000 c]> (disk w);
                       log := log w; published := published w |}
               else w).
    assert (Hstep : (if (Z.of_nat (length c) >? 100000)%Z
                     then truncate f 100000 else ret tt) w = (w1, Return tt)).
    { subst w1. destruct (Z.of_nat (length c) >? 100000)%Z; [|reflexivity].
      unfold truncate. now rewrite Hc. }
    rewrite Hstep.
    assert (Hw1 : log w1 = log w /\ published w1 = published w
                  /\ forall p, disk w1 !! p =
                       if decide (f = p) then Some (capped c) else disk w !! p).
    { subst w1. unfold capped.
      destruct (Z.of_nat (length c) >? 100000)%Z; cbn.
      - split; [reflexivity|split; [reflexivity|]].
        intros p. now rewrite lookup_insert.
      - split; [reflexivity|split; [reflexivity|]].
        intros p. destruct (decide (f = p)) as [<-|_]; [exact Hc|reflexivity]. }
    destruct Hw1 as (Hl1 & Hp1 & Hd1).
    destruct (IH (results ++ [f])%list w1) as (w' & Hrun & Hl & Hp & Hd).
    { apply Hfs. intros p [x Hx]. rewrite Hd1.
      destruct (decide (f = p)); eauto. }
    exists w'. rewrite Hrun, <- app_assoc. cbn [app].
    repeat split; [congruence..|].
    intros p. rewrite Hd, Hd1.
    destruct (decide (f = p)) as [<-|Hne].
    + rewrite (bool_decide_eq_true_2 (f ∈ f :: _)) by now left.
      rewrite Hc. cbn. rewrite capped_idempotent. now case_bool_decide.
    + destruct (bool_decide (p ∈ List.filter candidate fs)) eqn:Ein.
      * apply bool_decide_eq_true in Ein.
        rewrite bool_decide_eq_true_2 by now right. reflexivity.
      * apply bool_decide_eq_false in Ein.
        rewrite bool_decide_eq_false_2; [reflexivity|].
        intros Hin. apply elem_of_cons in Hin as [->|Hin]; tauto.
Qed.

Lemma listing_on_disk (w : world) (p : string) :
  p ∈ listing w <-> is_Some (disk w !! p).
Proof.
  unfold listing. rewrite list_elem_of_fmap. split.
  - intros [[k c] [-> Hin]]. apply elem_of_map_to_list in Hin. eauto.
  - intros [c Hc]. exists (p, c). split; [reflexivity|].
    now apply elem_of_map_to_list.
Qed.

Lemma collector_spec (version : string) (w : world) :
  exists w' results,
    collector version w = (w', Return results)
    /\ results = List.filter candidate
                   (List.filter (markdown_below version) (listing w))
    /\ log w' = log w /\ published w' = published w
    /\ forall p, disk w' !! p =
         if bool_decide (p ∈ results) then capped <$> disk w !! p
         else disk w !! p.
Proof.
  unfold collector, bind, rglob.
  destruct (collect_spec (List.filter (markdown_below version) (listing w)) [] w)
    as (w' & Hrun & Hl & Hp & Hd).
  { intros f Hf. apply list_elem_of_In, filter_In in Hf as [Hf _].
    now apply listing_on_disk, list_elem_of_In. }
  exists w', (List.filter candidate
                (List.filter (markdown_below version) (listing w))).
  unfold markdown_below in *. rewrite Hrun. auto.
Qed.

Lemma collector_results (version : string) (w w' : world)
    (results : list string) (file : string) :
  collector version w = (w', Return results) ->
  file ∈ results <->
  is_Some (disk w !! file) /\ markdown_below version file = true
  /\ candidate file = true.
Proof.
  intros Hrun.
  destruct (collector_spec version w) as (w2 & r2 & Hrun2 & Hr & _).
  rewrite Hrun in Hrun2. injection Hrun2 as _ <-. subst results.
  rewrite list_elem_of_In, !filter_In, <- list_elem_of_In, listing_on_disk.
  tauto.
Qed.

End Collector.

(** ** Substrings and names *)

Lemma startswith_append (p s : string) : PyStr.startswith p (p ++ s) = true.
Proof.
  induction p as [|c p IH]; [reflexivity|]. rewrite append_cons.
  cbn [PyStr.startswith]. now rewrite Ascii.eqb_refl.
Qed.

Lemma contains_append_r (sub pre s : string) :
  PyStr.contains sub s = true -> PyStr.contains sub (pre ++ s) = true.
Proof.
  intros H. induction pre as [|c pre IH]; [exact H|].
  rewrite append_cons. cbn [PyStr.contains]. rewrite IH. apply orb_true_r.
Qed.

Lemma contains_middle (sub pre post : string) :
  PyStr.contains sub (pre ++ sub ++ post) = true.
Proof.
  apply contains_append_r. destruct sub as [|c sub].
  - destruct post; reflexivity.
  - rewrite append_cons. cbn [PyStr.contains].
    rewrite <- append_cons, startswith_append. reflexivity.
Qed.

Lemma split_shape (sep : ascii) (s : string) :
  exists f fs pre,
    PyStr.split sep s = f :: fs
    /\ s = pre ++ List.last (f :: fs) ""
    /\ (fs = [] -> pre = "").
Proof.
  induction s as [|c s (f & fs & pre & Hsplit & Hs & Hpre)].
  - exists "", [], "". repeat split.
  - cbn [PyStr.split]. rewrite Hsplit. destruct (Ascii.eqb c sep).
    + exists "", (f :: fs), (String c pre).
      change (List.last ("" :: f :: fs) "") with (List.last (f :: fs) "").
      rewrite append_cons, <- Hs. repeat split. discriminate.
    + destruct fs as [|g gs].
      * rewrite (Hpre eq_refl), append_nil_l in Hs. cbn [List.last] in Hs.
        subst s. exists (String c f), [], "". repeat split.
      * exists (String c f), (g :: gs), (String c pre).
        rewrite append_cons. split; [reflexivity|]. split; [|discriminate].
        f_equal. exact Hs.
Qed.

(** The name of a path is the end of the path string. *)
Lemma name_suffix (p : string) : exists pre, p = pre ++ PyPath.name p.
Proof.
  destruct (split_shape "/" p) as (f & fs & pre & Hsplit & Hp & _).
  exists pre. unfold PyPath.name. now rewrite Hsplit.
Qed.

Lemma contains_name (sub p : string) :
  PyStr.contains sub (PyPath.name p) = true -> PyStr.contains sub p = true.
Proof.
  intros H. destruct (name_suffix p) as [pre Hp]. rewrite Hp.
  now apply contains_append_r.
Qed.

(** ** The claims on the collector *)

Section CollectorClaims.


(** C6. Whatever the version directory holds, a file whose stem is one of
    [EXCLUDED_FILES], or whose path string contains one of
    [EXCLUDED_DIRS], is not in the list the collector builds, whether or
    not its name matches the markdown pattern. *)
Theorem excluded_never_collected (version : string) (w w' : world)
    (results : list string) (file : string) :
  collector version w = (w', Return results) ->
  PyPath.stem file ∈ EXCLUDED_FILES
  \/ (exists substring, substring ∈ EXCLUDED_DIRS
                        /\ PyStr.contains substring file = true) ->
  file ∉ results.
Proof.
  intros Hrun Hex Hin.
  apply (collector_results version w w' results file Hrun) in Hin
    as (_ & _ & Hcand).
  destruct Hex as [Hstem|(substring & Hsub & Hcont)].
  - now apply (candidate_stem file Hcand).
  - rewrite (candidate_dirs file substring Hcand Hsub) in Hcont. discriminate.
Qed.

(** C9. The substring test reads the whole path string: a file is left
    out as soon as an excluded substring occurs anywhere in it, and an
    occurrence inside the file's own name is such an occurrence, whatever
    directory the file lies in. *)
Theorem excluded_substring_anywhere (version : string) (w w' : world)
    (results : list string) (file substring : string) :
  collector version w = (w', Return results) ->
  substring ∈ EXCLUDED_DIRS ->
  (PyStr.contains substring file = true -> file ∉ results)
  /\ (PyStr.contains substring (PyPath.name file) = true -> file ∉ results)
  /\ (forall dir base,
        file = dir ++ "/" ++ substring ++ base -> file ∉ results).
Proof.
  intros Hrun Hsub.
  assert (Hmain : PyStr.contains substring file = true -> file ∉ results).
  { intros Hcont Hin.
    apply (collector_results version w w' results file Hrun) in Hin
      as (_ & _ & Hcand).
    rewrite (candidate_dirs file substring Hcand Hsub) in Hcont. discriminate. }
  split; [exact Hmain|]. split.
  - intros Hname. now apply Hmain, contains_name.
  - intros dir base ->. apply Hmain.
    rewrite <- (append_assoc dir "/"). apply contains_middle.
Qed.

End CollectorClaims.

(** ** The extractor *)

Lemma bind_ret_r {A} (m : M A) (w : world) : bind m ret w = m w.
Proof. unfold bind, ret. destruct (m w) as [w' [a|e]]; reflexivity. Qed.

Lemma lstrip_single (s : string) :
  PyStr.startswith "//" s = false ->
  PyStr.lstrip "/" s = strip_one_leading "/" s.
Proof.
  destruct s as [|c s]; [reflexivity|].
  cbn [PyStr.lstrip strip_one_leading PyStr.startswith PyStr.has_char].
  rewrite orb_false_r.
  destruct (Ascii.eqb_spec c "/") as [->|_]; [|reflexivity].
  rewrite Ascii.eqb_refl. cbn [andb].
  destruct s as [|d s]; [reflexivity|].
  cbn [PyStr.lstrip PyStr.has_char PyStr.startswith].
  rewrite orb_false_r, andb_true_r, (ascii_eqb_sym "/" d).
  intros ->. reflexivity.
Qed.

Section Extractor.

Variable frontmatter_load : list byte -> outcome page.
Variable str_validator : value -> option string.

Abbreviation get_doc := (get_algolia_doc_from_file frontmatter_load str_validator).
Abbreviation extract_docs := (extract frontmatter_load str_validator).

Ltac open_doc Hdisk :=
  unfold get_algolia_doc_from_file, try_except_KeyError;
  unfold bind at 1; unfold read_file; rewrite Hdisk.

Lemma get_doc_missing (file : string) (w : world) :
  disk w !! file = None -> get_doc file w = (w, Raise OSError).
Proof. intros Hdisk. open_doc Hdisk. reflexivity. Qed.

Lemma get_doc_unparsable (file : string) (w : world) (c : list byte)
    (e : exn) :
  disk w !! file = Some c -> frontmatter_load c = Raise e ->
  (forall key, e <> KeyError key) ->
  get_doc file w = (w, Raise e).
Proof.
  intros Hdisk Hload He. open_doc Hdisk. rewrite Hload.
  destruct e; try reflexivity. now destruct (He key).
Qed.

Lemma get_doc_parse_key_error (file : string) (w : world) (c : list byte)
    (key : string) :
  disk w !! file = Some c -> frontmatter_load c = Raise (KeyError key) ->
  get_doc file w = (warn w (warning_message file key), Return None).
Proof. intros Hdisk Hload. open_doc Hdisk. rewrite Hload. reflexivity. Qed.

Lemma get_doc_collate (file : string) (w : world) (c : list byte) (pg : page) :
  disk w !! file = Some c -> frontmatter_load c = Return pg ->
  truthy (get (metadata pg) "collate") = true ->
  get_doc file w = (w, Return None).
Proof.
  intros Hdisk Hload Hflag. open_doc Hdisk. rewrite Hload, Hflag. reflexivity.
Qed.

Section Indexed.

Variables (file : string) (w : world) (c : list byte) (pg : page).
Hypothesis Hdisk : disk w !! file = Some c.
Hypothesis Hload : frontmatter_load c = Return pg.
Hypothesis Hflag : truthy (get (metadata pg) "collate") = false.

Ltac open_page :=
  open_doc Hdisk; rewrite Hload, Hflag; unfold bind, getitem.

Lemma get_doc_no_slug :
  metadata pg !! "slug" = None ->
  get_doc file w = (warn w (warning_message file "slug"), Return None).
Proof. intros Hslug. open_page. rewrite Hslug. reflexivity. Qed.

Lemma get_doc_no_title (sv : value) :
  metadata pg !! "slug" = Some sv -> metadata pg !! "title" = None ->
  get_doc file w = (warn w (warning_message file "title"), Return None).
Proof. intros Hslug Htitle. open_page. rewrite Hslug, Htitle. reflexivity. Qed.

Lemma get_doc_bad_slug (sv tv : value) :
  metadata pg !! "slug" = Some sv -> metadata pg !! "title" = Some tv ->
  (forall s, sv <> VStr s) ->
  get_doc file w
  = (w, Raise (match sv with VBytes _ => TypeError | _ => AttributeError end)).
Proof.
  intros Hslug Htitle Hstr. open_page. rewrite Hslug, Htitle.
  destruct sv; try reflexivity. now destruct (Hstr s).
Qed.

Lemma get_doc_invalid_title (slug : string) (tv : value) :
  metadata pg !! "slug" = Some (VStr slug) ->
  metadata pg !! "title" = Some tv ->
  str_validator tv = None ->
  get_doc file w = (w, Raise ValidationError).
Proof.
  intros Hslug Htitle Hval. open_page. rewrite Hslug, Htitle.
  cbn [ret lstrip_split]. unfold AlgoliaDoc_init. rewrite Hval.
  destruct (str_validator (VStr slug)); reflexivity.
Qed.

Hypothesis str_validator_str : forall s, str_validator (VStr s) = Some s.

Lemma validate_categories (l : list string) :
  mapM (fun c => str_validator (VStr c)) l = Some l.
Proof.
  apply mapM_Some. induction l; constructor; auto.
Qed.

Lemma get_doc_success (slug t : string) (tv : value) (d : option string) :
  metadata pg !! "slug" = Some (VStr slug) ->
  metadata pg !! "title" = Some tv ->
  str_validator tv = Some t ->
  optional_str_validator str_validator (get (metadata pg) "description")
    = Some d ->
  get_doc file w =
  (w, Return (Some {| objectID := slug; title := t; description := d;
                      categories := PyStr.split "/" (PyStr.lstrip "/" slug);
                      doc_content := get_page_content (content pg) |})).
Proof.
  intros Hslug Htitle Hval Hdesc. open_page. rewrite Hslug, Htitle.
  cbn [ret lstrip_split]. unfold AlgoliaDoc_init.
  rewrite !str_validator_str, Hval, Hdesc, validate_categories.
  reflexivity.
Qed.

End Indexed.

(** An exception of one page ends the extraction where it is raised. *)
Lemma extract_abort (done rest : list string) (file : string)
    (w0 w w' : world) (docs : list AlgoliaDoc) (e : exn) :
  extract_docs done w0 = (w, Return docs) ->
  get_doc file w = (w', Raise e) ->
  extract_docs (done ++ file :: rest)%list w0 = (w', Raise e).
Proof.
  revert w0 docs. induction done as [|p done IH]; intros w0 docs Hdone Hfile.
  - injection Hdone as <- _. cbn [app extract]. unfold bind at 1.
    now rewrite Hfile.
  - cbn [app extract] in *. unfold bind at 1 in Hdone. unfold bind at 1.
    destruct (get_doc p w0) as [w1 [d|e1]]; [|discriminate].
    unfold bind at 1 in Hdone. unfold bind at 1.
    destruct (extract_docs done w1) as [w2 [ds|e2]] eqn:E; [|discriminate].
    injection Hdone as <- _. now rewrite (IH _ _ E Hfile).
Qed.

(** A page that is skipped leaves the rest of the batch as it would be
    without it. *)
Lemma extract_skip (file : string) (rest : list string) (w w' : world) :
  get_doc file w = (w', Return None) ->
  extract_docs (file :: rest) w = extract_docs rest w'.
Proof.
  intros Hfile. cbn [extract]. unfold bind at 1. rewrite Hfile.
  apply bind_ret_r.
Qed.

(** What a page yields depends on the disk alone, and the disk is left as
    it is: the log is written, never read. *)
Lemma get_doc_disk_only (file : string) (w1 w2 : world) :
  disk w1 = disk w2 ->
  (get_doc file w1).2 = (get_doc file w2).2
  /\ disk (get_doc file w1).1 = disk w1
  /\ disk (get_doc file w2).1 = disk w2.
Proof.
  intros Hdisk.
  unfold get_algolia_doc_from_file, try_except_KeyError, bind, read_file,
    getitem, AlgoliaDoc_init, logging_warning, ret, raise.
  rewrite <- Hdisk.
  destruct (disk w1 !! file) as [c|]; [|now repeat split].
  destruct (frontmatter_load c) as [pg|[]]; try now repeat split.
  destruct (truthy (get (metadata pg) "collate")); [now repeat split|].
  destruct (metadata pg !! "slug") as [sv|]; [|now repeat split].
  destruct (metadata pg !! "title") as [tv|]; [|now repeat split].
  destruct sv; try now repeat split.
  unfold lstrip_split, ret.
  destruct (str_validator (VStr s)), (str_validator tv),
    (optional_str_validator str_validator (get (metadata pg) "description")),
    (mapM (fun c0 => str_validator (VStr c0))
       (PyStr.split "/" (PyStr.lstrip "/" s))),
    (str_validator (VStr (get_page_content (content pg))));
    now repeat split.
Qed.

Lemma extract_disk_only (files : list string) (w1 w2 : world) :
  disk w1 = disk w2 ->
  (extract_docs files w1).2 = (extract_docs files w2).2.
Proof.
  revert w1 w2. induction files as [|p files IH]; intros w1 w2 Hdisk;
    [reflexivity|].
  cbn [extract]. unfold bind at 1 3.
  destruct (get_doc_disk_only p w1 w2 Hdisk) as (Hout & Hd1 & Hd2).
  destruct (get_doc p w1) as [w1' r1], (get_doc p w2) as [w2' r2].
  cbn in Hout, Hd1, Hd2. subst r2.
  destruct r1 as [d|e]; [|reflexivity].
  specialize (IH w1' w2' ltac:(congruence)). unfold bind, ret.
  destruct (extract_docs files w1') as [w1'' [ds1|e1]],
           (extract_docs files w2') as [w2'' [ds2|e2]];
    cbn [snd] in IH |- *; try discriminate IH; try exact IH.
  injection IH as ->. reflexivity.
Qed.

End Extractor.

(** ** The run *)

Section Run.

Variable frontmatter_load : list byte -> outcome page.
Variable str_validator : value -> option string.
Variable ALGOLIA_INDEX : option string.
Variable ALGOLIA_CLIENT_ID : option string.
Variable ALGOLIA_ADMIN_KEY : option string.
Variable algolia : Algolia.library.

Abbreviation get_doc := (get_algolia_doc_from_file frontmatter_load str_validator).
Abbreviation extract_docs := (extract frontmatter_load str_validator).
Abbreviation index_of := (build_index frontmatter_load str_validator ALGOLIA_INDEX
   ALGOLIA_CLIENT_ID ALGOLIA_ADMIN_KEY algolia).
Abbreviation index_each := (for_each frontmatter_load str_validator ALGOLIA_INDEX
   ALGOLIA_CLIENT_ID ALGOLIA_ADMIN_KEY algolia).
Abbreviation run := (build_indexes frontmatter_load str_validator ALGOLIA_INDEX
   ALGOLIA_CLIENT_ID ALGOLIA_ADMIN_KEY algolia).

Abbreviation index_stage := (index_pages frontmatter_load str_validator
   ALGOLIA_INDEX ALGOLIA_CLIENT_ID ALGOLIA_ADMIN_KEY algolia).

(** An exception of the extraction ends lines 108-121 before the client
    is created. *)
Lemma index_pages_abort (version : string) (results : list string)
    (w1 w2 : world) (e : exn) :
  extract_docs results w1 = (w2, Raise e) ->
  index_stage version results w1 = (w2, Raise e).
Proof. intros Hext. unfold index_pages, bind. now rewrite Hext. Qed.

Lemma build_index_abort (version : string) (w0 w1 w2 : world)
    (results : list string) (e : exn) :
  collector version w0 = (w1, Return results) ->
  extract_docs results w1 = (w2, Raise e) ->
  index_of version w0 = (w2, Raise e).
Proof.
  intros Hcol Hext. unfold build_index. unfold bind at 1. rewrite Hcol.
  now apply index_pages_abort.
Qed.

Lemma for_each_abort (before after : list string) (version : string)
    (w0 w1 w2 : world) (e : exn) :
  index_each before w0 = (w1, Return tt) ->
  index_of version w1 = (w2, Raise e) ->
  index_each (before ++ version :: after)%list w0 = (w2, Raise e).
Proof.
  revert w0. induction before as [|v before IH]; intros w0 Hbefore Hv.
  - injection Hbefore as <-. cbn [app for_each]. unfold bind. now rewrite Hv.
  - cbn [app for_each] in *. unfold bind at 1 in Hbefore. unfold bind at 1.
    destruct (index_of v w0) as [w' [[]|e']]; [|discriminate].
    now apply IH.
Qed.

(** An exception that leaves [get_algolia_doc_from_file] ends the whole
    run, in the world in which it was raised. *)
Lemma run_abort (w0 w w' : world) (file : string) (e : exn) :
  reaches frontmatter_load str_validator ALGOLIA_INDEX
    ALGOLIA_CLIENT_ID ALGOLIA_ADMIN_KEY algolia w0 file w ->
  get_doc file w = (w', Raise e) ->
  run w0 = (w', Raise e).
Proof.
  intros (before & after & version & wv & w1 & done & rest & docs
          & Hglob & Hbefore & Hcol & Hdone) Hfile.
  unfold build_indexes. unfold bind at 1. rewrite Hglob.
  apply (for_each_abort _ _ _ _ wv); [exact Hbefore|].
  apply (build_index_abort _ _ w1 _ (done ++ file :: rest)%list); [exact Hcol|].
  now apply (extract_abort _ _ _ _ _ _ w _ docs).
Qed.

End Run.

(** ** The claims on the extractor *)

Section ExtractorClaims.

Variable frontmatter_load : list byte -> outcome page.
Variable str_validator : value -> option string.
Variable ALGOLIA_INDEX : option string.
Variable ALGOLIA_CLIENT_ID : option string.
Variable ALGOLIA_ADMIN_KEY : option string.
Variable algolia : Algolia.library.

Abbreviation get_doc := (get_algolia_doc_from_file frontmatter_load str_validator).
Abbreviation extract_docs := (extract frontmatter_load str_validator).
Abbreviation run := (build_indexes frontmatter_load str_validator ALGOLIA_INDEX
   ALGOLIA_CLIENT_ID ALGOLIA_ADMIN_KEY algolia).
Abbreviation run_reaches := (reaches frontmatter_load str_validator ALGOLIA_INDEX
   ALGOLIA_CLIENT_ID ALGOLIA_ADMIN_KEY algolia).
Abbreviation index_stage := (index_pages frontmatter_load str_validator
   ALGOLIA_INDEX ALGOLIA_CLIENT_ID ALGOLIA_ADMIN_KEY algolia).

(** C2, for the pages that are not flagged [collate]. When the front
    matter of such a page lacks [slug] or [title], the extractor returns no
    document and logs exactly one warning, which names the file and the
    missing key: [slug] when [slug] is missing, whether or not [title] is,
    and [title] otherwise; the rest of the batch is then extracted, and
    yields what it yields without that page. *)
Theorem missing_required_field_skipped (file : string) (w : world)
    (c : list byte) (pg : page) :
  disk w !! file = Some c ->
  frontmatter_load c = Return pg ->
  truthy (get (metadata pg) "collate") = false ->
  metadata pg !! "slug" = None \/ metadata pg !! "title" = None ->
  exists key,
    key = match metadata pg !! "slug" with
          | None => "slug"
          | Some _ => "title"
          end
    /\ metadata pg !! key = None
    /\ get_doc file w = (warn w (warning_message file key), Return None)
    /\ log (warn w (warning_message file key))
       = (log w ++ [warning_message file key])%list
    /\ PyStr.contains file (warning_message file key) = true
    /\ PyStr.contains key (warning_message file key) = true
    /\ forall rest,
         extract_docs (file :: rest) w
         = extract_docs rest (warn w (warning_message file key))
         /\ (extract_docs (file :: rest) w).2 = (extract_docs rest w).2.
Proof.
  intros Hdisk Hload Hflag Hmiss.
  assert (Hkey : exists key,
                   key = match metadata pg !! "slug" with
                         | None => "slug"
                         | Some _ => "title"
                         end
                   /\ metadata pg !! key = None
                   /\ get_doc file w
                      = (warn w (warning_message file key), Return None)).
  { destruct (metadata pg !! "slug") as [sv|] eqn:Hslug.
    - destruct Hmiss as [|Htitle]; [discriminate|].
      exists "title". split; [reflexivity|]. split; [exact Htitle|].
      now apply (get_doc_no_title _ _ _ _ c pg) with sv.
    - exists "slug". split; [reflexivity|]. split; [exact Hslug|].
      now apply (get_doc_no_slug _ _ _ _ c pg). }
  destruct Hkey as (key & Hk & Hnone & Hrun).
  exists key. do 4 (split; [first [assumption | reflexivity]|]).
  split; [|split].
  - unfold warning_message. apply contains_middle.
  - unfold warning_message, PyStr.repr. rewrite !append_assoc.
    do 4 apply contains_append_r. apply (contains_middle key "").
  - intros rest.
    rewrite (extract_skip _ _ _ rest _ _ Hrun). split; [reflexivity|].
    now apply extract_disk_only.
Qed.

(** C8. For a page whose metadata holds a truthy [collate] flag the
    extractor returns no document and leaves the world as it was: no
    warning, no other output; the batch goes on. *)
Theorem collate_skipped_silently (file : string) (w : world)
    (c : list byte) (pg : page) :
  disk w !! file = Some c ->
  frontmatter_load c = Return pg ->
  truthy (get (metadata pg) "collate") = true ->
  get_doc file w = (w, Return None)
  /\ forall rest, extract_docs (file :: rest) w = extract_docs rest w.
Proof.
  intros Hdisk Hload Hflag.
  assert (Hrun := get_doc_collate _ str_validator _ _ _ _ Hdisk Hload Hflag).
  split; [exact Hrun|]. intros rest. now apply extract_skip.
Qed.

(** C7, for the failures that are no [KeyError]. When the file cannot be
    opened, or [frontmatter.load] fails on it with an exception that is no
    [KeyError], the exception is not caught: it leaves
    [get_algolia_doc_from_file] with nothing logged, and it ends the
    extraction and the publishing of any list of pages that comes to the
    file, before the client is created. A run that comes to a page that
    fails to parse ends there with that exception; a run lists the files
    it reads, so it comes to none that is missing. When [frontmatter.load]
    fails with a [KeyError], the handler of the missing keys catches it:
    one warning is logged, no document is returned and the batch goes
    on. *)
Theorem fatal_errors_propagate (file : string) (w : world) :
  (disk w !! file = None ->
   get_doc file w = (w, Raise OSError)
   /\ forall version done rest w0 docs,
        extract_docs done w0 = (w, Return docs) ->
        index_stage version (done ++ file :: rest)%list w0
        = (w, Raise OSError))
  /\ (forall c e,
        disk w !! file = Some c ->
        frontmatter_load c = Raise e ->
        (forall key, e <> KeyError key) ->
        get_doc file w = (w, Raise e)
        /\ (forall version done rest w0 docs,
              extract_docs done w0 = (w, Return docs) ->
              index_stage version (done ++ file :: rest)%list w0
              = (w, Raise e))
        /\ forall w0, run_reaches w0 file w -> run w0 = (w, Raise e))
  /\ (forall c key,
        disk w !! file = Some c ->
        frontmatter_load c = Raise (KeyError key) ->
        get_doc file w = (warn w (warning_message file key), Return None)
        /\ forall rest,
             extract_docs (file :: rest) w
             = extract_docs rest (warn w (warning_message file key))).
Proof.
  assert (Hstage : forall e, get_doc file w = (w, Raise e) ->
            forall version done rest w0 docs,
              extract_docs done w0 = (w, Return docs) ->
              index_stage version (done ++ file :: rest)%list w0 = (w, Raise e)).
  { intros e Hrun version done rest w0 docs Hdone.
    apply index_pages_abort.
    now apply (extract_abort _ _ done rest file w0 w w docs). }
  split; [|split].
  - intros Hdisk.
    assert (Hrun := get_doc_missing frontmatter_load str_validator _ _ Hdisk).
    split; [exact Hrun|]. now apply Hstage.
  - intros c e Hdisk Hload He.
    assert (Hrun := get_doc_unparsable _ str_validator _ _ _ _ Hdisk Hload He).
    split; [exact Hrun|]. split; [now apply Hstage|].
    intros w0 Hreach.
    now apply (run_abort _ _ _ _ _ _ w0 w w file e Hreach).
  - intros c key Hdisk Hload.
    assert (Hrun := get_doc_parse_key_error _ str_validator _ _ _ _ Hdisk Hload).
    split; [exact Hrun|]. intros rest. now apply extract_skip.
Qed.

(** C10, for the pages that bind both keys. Only a missing key is
    handled. For a page that is not flagged [collate] and binds both
    [slug] and [title]: a slug that is not a string makes [lstrip] raise, a
    type error when the slug is bytes and an attribute error otherwise, and
    a string slug with a title that is null, or that the model's validation
    rejects, makes the construction raise a validation error; none of
    these is caught, nothing is logged, and a run that comes to the page
    ends there. *)
Theorem mistyped_required_field_aborts (file : string) (w : world)
    (c : list byte) (pg : page) (sv tv : value) :
  str_validator VNull = None ->
  disk w !! file = Some c ->
  frontmatter_load c = Return pg ->
  truthy (get (metadata pg) "collate") = false ->
  metadata pg !! "slug" = Some sv ->
  metadata pg !! "title" = Some tv ->
  (forall s, sv <> VStr s) \/ tv = VNull \/ str_validator tv = None ->
  exists e,
    e = match sv with
        | VStr _ => ValidationError
        | VBytes _ => TypeError
        | _ => AttributeError
        end
    /\ get_doc file w = (w, Raise e)
    /\ (forall rest, extract_docs (file :: rest) w = (w, Raise e))
    /\ (forall w0, run_reaches w0 file w -> run w0 = (w, Raise e)).
Proof.
  intros Hnull Hdisk Hload Hflag Hslug Htitle Hbad.
  assert (Hrun : exists e,
            e = match sv with
                | VStr _ => ValidationError
                | VBytes _ => TypeError
                | _ => AttributeError
                end
            /\ get_doc file w = (w, Raise e)).
  { assert (Hcases : (forall s, sv <> VStr s) \/ exists s, sv = VStr s).
    { destruct sv; try (left; discriminate). right. eauto. }
    destruct Hcases as [Hns|[s ->]].
    - eexists. split; [reflexivity|].
      rewrite (get_doc_bad_slug _ _ _ _ c pg Hdisk Hload Hflag sv tv Hslug Htitle Hns).
      destruct sv; try reflexivity. now destruct (Hns s).
    - exists ValidationError. split; [reflexivity|].
      apply (get_doc_invalid_title _ _ _ _ c pg) with s tv; try assumption.
      destruct Hbad as [Hns|[->|Hrej]]; [now destruct (Hns s)|exact Hnull|exact Hrej]. }
  destruct Hrun as (e & He & Hrun). exists e.
  split; [exact He|]. split; [exact Hrun|]. split.
  - intros rest. now apply (extract_abort _ _ [] rest file w w w []).
  - intros w0 Hreach.
    now apply (run_abort _ _ _ _ _ _ w0 w w file e Hreach).
Qed.

(** C3, with every leading separator removed. When a document is built,
    its [categories] are the slug with every leading ["/"] removed, split
    on ["/"]. That is the slug with one leading ["/"] removed and split on
    ["/"] whenever the slug does not start with two of them; for
    ["/a/b/c"] the categories are ["a"], ["b"], ["c"]. *)
Theorem categories_from_slug (file : string) (w : world)
    (c : list byte) (pg : page) (slug t : string) (tv : value)
    (d : option string) :
  (forall s, str_validator (VStr s) = Some s) ->
  disk w !! file = Some c ->
  frontmatter_load c = Return pg ->
  truthy (get (metadata pg) "collate") = false ->
  metadata pg !! "slug" = Some (VStr slug) ->
  metadata pg !! "title" = Some tv ->
  str_validator tv = Some t ->
  optional_str_validator str_validator (get (metadata pg) "description")
    = Some d ->
  exists doc,
    get_doc file w = (w, Return (Some doc))
    /\ objectID doc = slug
    /\ categories doc = PyStr.split "/" (PyStr.lstrip "/" slug)
    /\ (PyStr.startswith "//" slug = false ->
        categories doc = categories_spec slug)
    /\ (slug = "/a/b/c" -> categories doc = ["a"; "b"; "c"]).
Proof.
  intros Hstr Hdisk Hload Hflag Hslug Htitle Hval Hdesc.
  eexists. split.
  - now apply (get_doc_success _ _ _ _ c pg Hdisk Hload Hflag Hstr slug t tv d).
  - cbn [objectID categories]. repeat split.
    + intros Hsingle. unfold categories_spec. now rewrite lstrip_single.
    + intros ->. reflexivity.
Qed.

End ExtractorClaims.


(** ** The model on small inputs *)

Example get_page_content_samples :
  get_page_content ("# Hello <span>world</span>" ++ String PyStr.LF "text")
    = " Hello worldtext"
  /\ get_page_content "a<<b>>c < d" = "a>c < d"
  /\ get_page_content "<>" = ""
  /\ get_page_content "<" = "<"
  /\ get_page_content ("a<b" ++ String PyStr.LF ">c<") = "ac<".
Proof. repeat split; vm_compute; reflexivity. Qed.

Example lstrip_split_samples :
  PyStr.split "/" (PyStr.lstrip "/" "/a/b/c") = ["a"; "b"; "c"]
  /\ PyStr.split "/" (PyStr.lstrip "/" "//a//b/") = ["a"; ""; "b"; ""]
  /\ PyStr.split "/" (PyStr.lstrip "/" "") = [""].
Proof. repeat split; vm_compute; reflexivity. Qed.

Example stem_samples :
  PyPath.stem "content/v1.0.0/menu.md" = "menu"
  /\ PyPath.stem "content/v1.0.0/gdpr-banner.MD" = "gdpr-banner"
  /\ PyPath.stem "content/v1.0.0/a.b.md" = "a.b"
  /\ PyPath.stem "content/v1.0.0/.md" = ".md".
Proof. repeat split; vm_compute; reflexivity. Qed.

Example markdown_pattern_samples :
  PyPath.fnmatch PyPath.MARKDOWN "a.md" = true
  /\ PyPath.fnmatch PyPath.MARKDOWN "a.Md" = true
  /\ PyPath.fnmatch PyPath.MARKDOWN ".md" = true
  /\ PyPath.fnmatch PyPath.MARKDOWN "a.mdx" = false
  /\ PyPath.fnmatch PyPath.MARKDOWN "amd" = false.
Proof. repeat split; vm_compute; reflexivity. Qed.

(** The run over [Sample.start]: one version, one document published, one
    warning for the page without a title; the flagged page, the menu and
    the two [main-concepts] paths leave no trace. *)
Example sample_run :
  let r := build_indexes Sample.load Sample.strict_str (Some "DOCS")
             (Some "APP") (Some "KEY") Sample.service Sample.start in
  r.2 = Return tt
  /\ published r.1
     = [("DOCS-v1.0.0",
         [{| objectID := "/docs/intro"; title := "Intro";
             description := None; categories := ["docs"; "intro"];
             doc_content := " Hello worldtext" |}])]
  /\ log r.1
     = ["Error processing file at content/v1.0.0/untitled.md - ['title']. Skipping..."]
  /\ disk r.1 = disk Sample.start.
Proof. repeat split; vm_compute; reflexivity. Qed.

(** A page that is gone when its turn comes ends lines 108-121 with the
    error of [open]; nothing is logged and no index is replaced. *)
Example missing_page_ends_indexing :
  index_pages Sample.load Sample.strict_str (Some "DOCS") (Some "APP")
    (Some "KEY") Sample.service "content/v1.0.0"
    ["content/v1.0.0/intro.md"; "content/v1.0.0/gone.md";
     "content/v1.0.0/untitled.md"]
    Sample.start
  = (Sample.start, Raise OSError).
Proof. vm_compute; reflexivity. Qed.

(** The sample reader on the texts of the examples: a mapping, a block
    that is one scalar, a text without a block, a value tagged [!!bool]
    that is no boolean, a second [: ] in a plain value. *)
Example load_samples :
  Sample.load (Sample.file ["---"; "slug: /a/b"; "title: T"; "collate: no";
                            "count: 12"; "description:"; "---"; ""; "body"; ""])
  = Return {| metadata := {[ "slug" := VStr "/a/b"; "title" := VStr "T";
                             "collate" := VBool false; "count" := VInt 12;
                             "description" := VNull ]};
              content := "body" |}
  /\ Sample.load (Sample.file ["---"; "slug /docs/broken"; "---"; "body"])
     = Return {| metadata := ∅; content := "body" |}
  /\ Sample.load (Sample.file ["plain text"; "---"])
     = Return {| metadata := ∅;
                 content := "plain text" ++ String PyStr.LF "---" |}
  /\ Sample.load (Sample.file ["---"; "collate: !!bool maybe"; "---"; "body"])
     = Raise (KeyError "maybe")
  /\ Sample.load (Sample.file ["---"; "collate: !!bool yes"; "---"; "body"])
     = Return {| metadata := {[ "collate" := VBool true ]}; content := "body" |}
  /\ Sample.load (Sample.file ["---"; "title: Broken: page"; "---"; "body"])
     = Raise ParseError.
Proof. repeat split; vm_compute; reflexivity. Qed.

(** A slug given as [!!binary] is bytes, and [lstrip] refuses its string
    argument. *)
Example binary_slug_type_error :
  get_algolia_doc_from_file Sample.load Sample.strict_str
    "content/v1.0.0/bin.md" SampleWorlds.binary_slug
  = (SampleWorlds.binary_slug, Raise TypeError)
  /\ (metadata <$> match Sample.load (Sample.file
                           ["---"; "slug: !!binary L2RvY3M="; "---"; "body"]) with
                   | Return pg => Some pg
                   | Raise _ => None
                   end)
     = Some {[ "slug" := VBytes (list_byte_of_string "/docs") ]}.
Proof. split; vm_compute; reflexivity. Qed.

(** ** The claims on the sample worlds *)

Section Examples.

Abbreviation load := Sample.load.
Abbreviation strict := Sample.strict_str.
Abbreviation DOCS := (Some "DOCS").
Abbreviation APP := (Some "APP").
Abbreviation KEY := (Some "KEY").

Ltac evaluate := vm_compute; reflexivity.

Lemma excluded_never_collected_witness :
  "content/v1.0.0/menu.md"
  ∉ ["content/v1.0.0/untitled.md"; "content/v1.0.0/internal.md";
     "content/v1.0.0/intro.md"].
Proof.
  apply (excluded_never_collected "content/v1.0.0" Sample.start Sample.start).
  - evaluate.
  - left. apply list_elem_of_In. vm_compute. tauto.
Defined.

Lemma excluded_substring_anywhere_witness :
  "content/v1.0.0/main-concepts-overview.md"
  ∉ ["content/v1.0.0/untitled.md"; "content/v1.0.0/internal.md";
     "content/v1.0.0/intro.md"].
Proof.
  refine (proj1 (proj2 (excluded_substring_anywhere "content/v1.0.0"
            Sample.start Sample.start _
            "content/v1.0.0/main-concepts-overview.md" "main-concepts"
            _ _)) _).
  - evaluate.
  - apply list_elem_of_In. vm_compute. tauto.
  - evaluate.
Defined.

Lemma missing_required_field_skipped_witness :
  get_algolia_doc_from_file load strict "content/v1.0.0/untitled.md"
    SampleWorlds.untitled
  = (warn SampleWorlds.untitled
       "Error processing file at content/v1.0.0/untitled.md - ['title']. Skipping...",
     Return None).
Proof.
  destruct (missing_required_field_skipped load strict
              "content/v1.0.0/untitled.md" SampleWorlds.untitled
              (Sample.file ["---"; "slug: /docs/untitled"; "---"; "body"])
              {| metadata := {[ "slug" := VStr "/docs/untitled" ]};
                 content := "body" |})
    as (key & Hkey & Hnone & Hrun & _).
  - evaluate.
  - evaluate.
  - evaluate.
  - right. evaluate.
  - rewrite Hrun, Hkey. evaluate.
Defined.

Lemma collate_skipped_silently_witness :
  get_algolia_doc_from_file load strict "content/v1.0.0/internal.md"
    SampleWorlds.flagged
  = (SampleWorlds.flagged, Return None).
Proof.
  refine (proj1 (collate_skipped_silently load strict
            "content/v1.0.0/internal.md" SampleWorlds.flagged
            (Sample.file ["---"; "collate: true"; "---"; "body"])
            {| metadata := {[ "collate" := VBool true ]}; content := "body" |}
            _ _ _)); evaluate.
Defined.

Lemma fatal_errors_propagate_witness :
  build_indexes load strict DOCS APP KEY Sample.service SampleWorlds.broken
  = (SampleWorlds.broken_stop, Raise ParseError).
Proof.
  refine (proj2 (proj2 (proj1 (proj2
            (fatal_errors_propagate load strict DOCS APP KEY Sample.service
               "content/v2.0.0/broken.md" SampleWorlds.broken_stop))
            (Sample.file ["---"; "slug: /docs/broken"; "title: Broken: page";
                          "---"; "body"])
            ParseError _ _ _)) SampleWorlds.broken _).
  - evaluate.
  - evaluate.
  - discriminate.
  - exists ["content/v1.0.0"], [], "content/v2.0.0",
      SampleWorlds.broken_stop, SampleWorlds.broken_stop,
      ["content/v2.0.0/intro.md"], [],
      [{| objectID := "/docs/intro"; title := "Intro";
          description := None; categories := ["docs"; "intro"];
          doc_content := "text" |}].
    repeat split; evaluate.
Defined.

Lemma mistyped_required_field_aborts_witness :
  get_algolia_doc_from_file load strict "content/v1.0.0/page.md"
    SampleWorlds.numeric_slug
  = (SampleWorlds.numeric_slug, Raise AttributeError).
Proof.
  destruct (mistyped_required_field_aborts load strict DOCS APP KEY
              Sample.service
              "content/v1.0.0/page.md" SampleWorlds.numeric_slug
              (Sample.file ["---"; "slug: 12"; "title: Twelve"; "---"; "body"])
              {| metadata := {[ "slug" := VInt 12; "title" := VStr "Twelve" ]};
                 content := "body" |}
              (VInt 12) (VStr "Twelve")
              ltac:(evaluate) ltac:(evaluate) ltac:(evaluate) ltac:(evaluate)
              ltac:(evaluate) ltac:(evaluate) ltac:(left; discriminate))
    as (e & -> & Hrun & _).
  exact Hrun.
Defined.

Lemma categories_from_slug_witness :
  exists doc,
    get_algolia_doc_from_file load strict "content/v1.0.0/c.md"
      SampleWorlds.nested
    = (SampleWorlds.nested, Return (Some doc))
    /\ categories doc = ["a"; "b"; "c"].
Proof.
  destruct (categories_from_slug load strict
              "content/v1.0.0/c.md" SampleWorlds.nested
              (Sample.file ["---"; "slug: /a/b/c"; "title: C"; "---"; "body"])
              {| metadata := {[ "slug" := VStr "/a/b/c"; "title" := VStr "C" ]};
                 content := "body" |}
              "/a/b/c" "C" (VStr "C") None
              ltac:(reflexivity) ltac:(evaluate) ltac:(evaluate)
              ltac:(evaluate) ltac:(evaluate) ltac:(evaluate)
              ltac:(evaluate) ltac:(evaluate))
    as (doc & Hrun & _ & _ & _ & Hcat).
  exists doc. split; [exact Hrun | now apply Hcat].
Defined.

(** C2 does not extend to flagged pages: a page flagged [collate] that
    lacks [slug] is skipped without any warning. *)
Lemma flagged_page_without_slug_not_warned :
  ~ (forall (file : string) (w : world) (c : list byte) (pg : page),
       disk w !! file = Some c ->
       load c = Return pg ->
       metadata pg !! "slug" = None \/ metadata pg !! "title" = None ->
       exists key,
         get_algolia_doc_from_file load strict file w
         = (warn w (warning_message file key), Return None)).
Proof.
  intros H.
  destruct (H "content/v1.0.0/internal.md" SampleWorlds.flagged
              (Sample.file ["---"; "collate: true"; "---"; "body"])
              {| metadata := {[ "collate" := VBool true ]}; content := "body" |})
    as [key Hrun]; [evaluate | evaluate | left; evaluate |].
  assert (Hskip : get_algolia_doc_from_file load strict
                    "content/v1.0.0/internal.md" SampleWorlds.flagged
                  = (SampleWorlds.flagged, Return None)) by evaluate.
  rewrite Hskip in Hrun.
  injection Hrun as Hlog. discriminate Hlog.
Qed.

(** C3 with a single separator removed fails: for the slug ["//guides"]
    the categories are ["guides"], not the empty string followed by
    ["guides"]. *)
Lemma double_slash_categories :
  ~ (forall (file : string) (w : world) (c : list byte) (pg : page)
            (slug : string) (doc : AlgoliaDoc),
       disk w !! file = Some c ->
       load c = Return pg ->
       metadata pg !! "slug" = Some (VStr slug) ->
       get_algolia_doc_from_file load strict file w = (w, Return (Some doc)) ->
       categories doc = categories_spec slug).
Proof.
  intros H.
  assert (Hcat := H "content/v1.0.0/guides.md" SampleWorlds.double_slash
            (Sample.file ["---"; "slug: //guides"; "title: Guides"; "---"; "body"])
            {| metadata := {[ "slug" := VStr "//guides"; "title" := VStr "Guides" ]};
               content := "body" |}
            "//guides"
            {| objectID := "//guides"; title := "Guides"; description := None;
               categories := ["guides"]; doc_content := "body" |}
            ltac:(evaluate) ltac:(evaluate) ltac:(evaluate) ltac:(evaluate)).
  vm_compute in Hcat. discriminate Hcat.
Qed.

(** C7 does not hold of every parse failure: a [collate] value tagged
    [!!bool] that is no boolean word makes [frontmatter.load] raise a
    [KeyError], which the handler of the missing keys catches. The page is
    skipped with a warning that shows the word, and the run ends normally
    with the index of the version replaced. *)
Lemma parse_key_error_is_caught :
  ~ (forall (file : string) (w : world) (c : list byte) (e : exn),
       disk w !! file = Some c ->
       load c = Raise e ->
       exists w', get_algolia_doc_from_file load strict file w = (w', Raise e))
  /\ build_indexes load strict DOCS APP KEY Sample.service SampleWorlds.mistagged
     = (publish
          (warn SampleWorlds.mistagged
             "Error processing file at content/v1.0.0/maybe.md - ['maybe']. Skipping...")
          "DOCS-v1.0.0" [],
        Return tt).
Proof.
  split; [|evaluate].
  intros H.
  destruct (H "content/v1.0.0/maybe.md" SampleWorlds.mistagged
              (Sample.file ["---"; "slug: /docs/maybe"; "title: Maybe";
                            "collate: !!bool maybe"; "---"; "body"])
              (KeyError "maybe") ltac:(evaluate) ltac:(evaluate))
    as (w' & Hrun).
  assert (Hskip : get_algolia_doc_from_file load strict
                    "content/v1.0.0/maybe.md" SampleWorlds.mistagged
                  = (warn SampleWorlds.mistagged
                       (warning_message "content/v1.0.0/maybe.md" "maybe"),
                     Return None)) by evaluate.
  rewrite Hskip in Hrun. discriminate Hrun.
Qed.

(** C10 fails as it is worded, in four ways, each of which is the claim
    with the ways before it set right.
    - A key that is present with a null value does not raise when the
      other key is missing: the missing key comes first, and the page is
      skipped with a warning.
    - With both keys present, a page flagged [collate] is skipped before
      either value is looked at.
    - With both keys present and no flag, a slug that is not a string
      raises, but not a validation error: [lstrip] fails before the
      document is constructed.
    - With a string slug, a title that is not a string need not raise:
      that is for the validation to say, and one that turns a number into
      its text, as pydantic 1 does, builds the document. *)
Lemma mistyped_field_outcomes :
  ~ (forall (file : string) (w : world) (c : list byte) (pg : page) (tv : value),
       disk w !! file = Some c ->
       load c = Return pg ->
       metadata pg !! "title" = Some tv ->
       (forall s, tv <> VStr s) ->
       exists w' e,
         get_algolia_doc_from_file load strict file w = (w', Raise e))
  /\ ~ (forall (file : string) (w : world) (c : list byte) (pg : page)
               (sv tv : value),
          disk w !! file = Some c ->
          load c = Return pg ->
          metadata pg !! "slug" = Some sv ->
          metadata pg !! "title" = Some tv ->
          (forall s, sv <> VStr s) ->
          exists w' e,
            get_algolia_doc_from_file load strict file w = (w', Raise e))
  /\ ~ (forall (file : string) (w : world) (c : list byte) (pg : page)
               (sv tv : value),
          disk w !! file = Some c ->
          load c = Return pg ->
          truthy (get (metadata pg) "collate") = false ->
          metadata pg !! "slug" = Some sv ->
          metadata pg !! "title" = Some tv ->
          (forall s, sv <> VStr s) ->
          get_algolia_doc_from_file load strict file w
          = (w, Raise ValidationError))
  /\ ~ (forall (file : string) (w : world) (c : list byte) (pg : page)
               (slug : string) (tv : value),
          disk w !! file = Some c ->
          load c = Return pg ->
          truthy (get (metadata pg) "collate") = false ->
          metadata pg !! "slug" = Some (VStr slug) ->
          metadata pg !! "title" = Some tv ->
          (forall s, tv <> VStr s) ->
          exists w' e,
            get_algolia_doc_from_file load Sample.lax_str file w = (w', Raise e)).
Proof.
  split; [|split; [|split]]; intros H.
  - destruct (H "content/v1.0.0/draft.md" SampleWorlds.null_title
                (Sample.file ["---"; "title: null"; "---"; "body"])
                {| metadata := {[ "title" := VNull ]}; content := "body" |}
                VNull
                ltac:(evaluate) ltac:(evaluate) ltac:(evaluate)
                ltac:(discriminate))
      as (w' & e & Hrun).
    assert (Hskip : get_algolia_doc_from_file load strict
                      "content/v1.0.0/draft.md" SampleWorlds.null_title
                    = (warn SampleWorlds.null_title
                         (warning_message "content/v1.0.0/draft.md" "slug"),
                       Return None)) by evaluate.
    rewrite Hskip in Hrun. discriminate Hrun.
  - destruct (H "content/v1.0.0/internal.md" SampleWorlds.flagged_numeric
                (Sample.file ["---"; "collate: true"; "slug: 12";
                              "title: Twelve"; "---"; "body"])
                {| metadata := {[ "collate" := VBool true; "slug" := VInt 12;
                                  "title" := VStr "Twelve" ]};
                   content := "body" |}
                (VInt 12) (VStr "Twelve")
                ltac:(evaluate) ltac:(evaluate) ltac:(evaluate) ltac:(evaluate)
                ltac:(discriminate))
      as (w' & e & Hrun).
    assert (Hskip : get_algolia_doc_from_file load strict
                      "content/v1.0.0/internal.md" SampleWorlds.flagged_numeric
                    = (SampleWorlds.flagged_numeric, Return None)) by evaluate.
    rewrite Hskip in Hrun. discriminate Hrun.
  - assert (Hrun := H "content/v1.0.0/page.md" SampleWorlds.numeric_slug
                (Sample.file ["---"; "slug: 12"; "title: Twelve"; "---"; "body"])
                {| metadata := {[ "slug" := VInt 12; "title" := VStr "Twelve" ]};
                   content := "body" |}
                (VInt 12) (VStr "Twelve")
                ltac:(evaluate) ltac:(evaluate) ltac:(evaluate) ltac:(evaluate)
                ltac:(evaluate) ltac:(discriminate)).
    assert (Hattr : get_algolia_doc_from_file load strict
                      "content/v1.0.0/page.md" SampleWorlds.numeric_slug
                    = (SampleWorlds.numeric_slug, Raise AttributeError))
      by evaluate.
    rewrite Hattr in Hrun. discriminate Hrun.
  - destruct (H "content/v1.0.0/year.md" SampleWorlds.numeric_title
                (Sample.file ["---"; "slug: /docs/year"; "title: 2021"; "---";
                              "body"])
                {| metadata := {[ "slug" := VStr "/docs/year";
                                  "title" := VInt 2021 ]};
                   content := "body" |}
                "/docs/year" (VInt 2021)
                ltac:(evaluate) ltac:(evaluate) ltac:(evaluate) ltac:(evaluate)
                ltac:(evaluate) ltac:(discriminate))
      as (w' & e & Hrun).
    assert (Hdoc : get_algolia_doc_from_file load Sample.lax_str
                     "content/v1.0.0/year.md" SampleWorlds.numeric_title
                   = (SampleWorlds.numeric_title,
                      Return (Some {| objectID := "/docs/year"; title := "2021";
                                      description := None;
                                      categories := ["docs"; "year"];
                                      doc_content := "body" |}))) by evaluate.
    rewrite Hdoc in Hrun. discriminate Hrun.
Qed.

End Examples.


(** ** Subsequences *)

Lemma subseq_refl (s : string) : subseq s s.
Proof. induction s; constructor; assumption. Qed.

Lemma subseq_empty (t : string) : subseq "" t.
Proof. induction t; constructor; assumption. Qed.

Lemma subseq_trans (s t u : string) : subseq s t -> subseq t u -> subseq s u.
Proof.
  intros Hst Htu. revert s Hst.
  induction Htu as [|c t u Htu IH|c t u Htu IH]; intros s Hst.
  - exact Hst.
  - apply subseq_skip. now apply IH.
  - inversion Hst as [|c' s' t' Hs|c' s' t' Hs]; subst.
    + apply subseq_skip. now apply IH.
    + apply subseq_keep. now apply IH.
Qed.

Lemma subseq_append (s1 t1 s2 t2 : string) :
  subseq s1 t1 -> subseq s2 t2 -> subseq (s1 ++ s2) (t1 ++ t2).
Proof.
  intros H1 H2. induction H1; rewrite ?append_cons, ?append_nil_l;
    [assumption | now apply subseq_skip | now apply subseq_keep].
Qed.

Lemma subseq_length (s t : string) :
  subseq s t -> (String.length s <= String.length t)%nat.
Proof. induction 1; cbn [String.length]; lia. Qed.

Lemma subseq_has_char (c : ascii) (s t : string) :
  subseq s t -> PyStr.has_char c s = true -> PyStr.has_char c t = true.
Proof.
  induction 1 as [|d s t H IH|d s t H IH]; cbn [PyStr.has_char]; intros Hc.
  - discriminate.
  - rewrite (IH Hc). apply orb_true_r.
  - apply orb_true_iff in Hc as [Hc|Hc]; [now rewrite Hc|].
    rewrite (IH Hc). apply orb_true_r.
Qed.

Lemma discard_subseq (p : ascii -> bool) (s : string) : subseq (discard p s) s.
Proof.
  induction s as [|c s IH]; cbn [discard]; [constructor|].
  destruct (p c); now constructor.
Qed.

Lemma strip_spans_subseq (s m : string) : strip_spans s m -> subseq m s.
Proof.
  induction 1 as [s _|t u r r' _ _ _ IH]; [apply subseq_refl|].
  apply subseq_append; [apply subseq_refl|].
  apply subseq_skip.
  rewrite <- (append_nil_l r'). apply subseq_append; [apply subseq_empty|].
  now apply subseq_skip.
Qed.

(** X1. [get_page_content] only takes characters away: its result is the
    body with some characters left out, in the order they had, so it is
    never longer than the body and holds no character the body lacks. *)
Theorem get_page_content_subseq (content : string) :
  subseq (get_page_content content) content
  /\ (String.length (get_page_content content) <= String.length content)%nat
  /\ forall c, PyStr.has_char c (get_page_content content) = true ->
               PyStr.has_char c content = true.
Proof.
  assert (H : subseq (get_page_content content) content).
  { rewrite get_page_content_discard.
    apply subseq_trans with (Re.sub CONTENT_FLAGS CONTENT_REGEX "" content).
    - apply discard_subseq.
    - apply strip_spans_subseq, sub_strip. }
  split; [exact H|]. split; [now apply subseq_length|].
  intros c. now apply subseq_has_char.
Qed.

Lemma discard_fixed (p : ascii -> bool) (s : string) :
  discard p s = s -> forall c, PyStr.has_char c s = true -> p c = false.
Proof.
  induction s as [|d s IH]; cbn [discard PyStr.has_char]; intros H c Hc;
    [discriminate|].
  destruct (p d) eqn:E.
  - pose proof (subseq_length _ _ (discard_subseq p s)) as Hlen.
    rewrite H in Hlen. cbn [String.length] in Hlen. lia.
  - injection H as H. apply orb_true_iff in Hc as [Hc|Hc]; [|now apply IH].
    apply Ascii.eqb_eq in Hc. now subst.
Qed.

(** X2. A body in which no ["<"] has a [">"] after it loses its newlines
    and its ["#"] and nothing else: an unclosed ["<"], and a [">"] that
    closes nothing, stay where they are. *)
Theorem get_page_content_no_span (content : string) :
  has_span content = false ->
  get_page_content content = discard newline_or_hash content.
Proof.
  intros H. rewrite get_page_content_discard.
  now rewrite (strip_spans_no_span _ _ H (sub_strip content)).
Qed.

(** X3. The bodies [get_page_content] returns as they are, are exactly
    those with no ["<"] followed by a [">"], no newline and no ["#"]. *)
Theorem get_page_content_fixed_point (content : string) :
  get_page_content content = content
  <-> has_span content = false
      /\ PyStr.has_char PyStr.LF content = false
      /\ PyStr.has_char "#" content = false.
Proof.
  split.
  - intros Hfix.
    assert (Hspan : has_span content = false).
    { rewrite <- Hfix, get_page_content_discard. apply has_span_discard.
      apply (strip_spans_result content), sub_strip. }
    split; [exact Hspan|].
    rewrite get_page_content_discard in Hfix.
    rewrite (strip_spans_no_span _ _ Hspan (sub_strip content)) in Hfix.
    split.
    + destruct (PyStr.has_char PyStr.LF content) eqn:E; [|reflexivity].
      now rewrite <- (discard_fixed _ _ Hfix _ E).
    + destruct (PyStr.has_char "#" content) eqn:E; [|reflexivity].
      now rewrite <- (discard_fixed _ _ Hfix _ E).
  - intros (Hs & Hn & Hh). now apply get_page_content_plain.
Qed.

(** ** Splitting and joining *)

Lemma split_not_nil (sep : ascii) (s : string) : PyStr.split sep s <> [].
Proof.
  destruct (split_shape sep s) as (f & fs & pre & H & _). now rewrite H.
Qed.

Lemma split_cons_other (sep c : ascii) (s : string) :
  Ascii.eqb c sep = false ->
  exists f fs, PyStr.split sep s = f :: fs
               /\ PyStr.split sep (String c s) = String c f :: fs.
Proof.
  intros Hc. cbn [PyStr.split]. rewrite Hc.
  destruct (PyStr.split sep s) as [|f fs] eqn:E; [now destruct (split_not_nil sep s)|].
  eauto.
Qed.

Lemma concat_cons (sep f : string) (fs : list string) :
  fs <> [] -> String.concat sep (f :: fs) = f ++ sep ++ String.concat sep fs.
Proof. destruct fs; [congruence|reflexivity]. Qed.

(** Joining the fields of a split gives the string back. *)
Lemma concat_split (sep : ascii) (s : string) :
  String.concat (String sep "") (PyStr.split sep s) = s.
Proof.
  induction s as [|c s IH]; [reflexivity|].
  destruct (Ascii.eqb_spec c sep) as [->|Hne].
  - cbn [PyStr.split]. rewrite Ascii.eqb_refl.
    rewrite concat_cons by apply split_not_nil. now rewrite IH.
  - apply Ascii.eqb_neq in Hne.
    destruct (split_cons_other sep c s Hne) as (f & fs & Hs & ->).
    rewrite Hs in IH. destruct fs as [|g gs].
    + cbn [String.concat] in *. now subst.
    + rewrite concat_cons in * by discriminate.
      rewrite append_cons. now rewrite IH.
Qed.

Lemma split_fields (sep : ascii) (s : string) :
  Forall (fun f => PyStr.has_char sep f = false) (PyStr.split sep s).
Proof.
  induction s as [|c s IH]; [repeat constructor|].
  destruct (Ascii.eqb_spec c sep) as [->|Hne].
  - cbn [PyStr.split]. rewrite Ascii.eqb_refl. now constructor.
  - apply Ascii.eqb_neq in Hne.
    destruct (split_cons_other sep c s Hne) as (f & fs & Hs & ->).
    rewrite Hs in IH. inversion IH as [|? ? Hf Hfs]; subst.
    constructor; [|exact Hfs]. cbn [PyStr.has_char].
    now rewrite (ascii_eqb_sym sep c), Hne, Hf.
Qed.

Lemma lstrip_head (chars s : string) (c : ascii) (s' : string) :
  PyStr.lstrip chars s = String c s' -> PyStr.has_char c chars = false.
Proof.
  induction s as [|d s IH]; cbn [PyStr.lstrip]; [discriminate|].
  destruct (PyStr.has_char d chars) eqn:E; [exact IH|].
  intros H. injection H as <- _. exact E.
Qed.

Lemma lstrip_suffix (chars s : string) :
  exists pre, s = pre ++ PyStr.lstrip chars s
              /\ forall c, PyStr.has_char c pre = true ->
                           PyStr.has_char c chars = true.
Proof.
  induction s as [|d s (pre & Hs & Hpre)]; cbn [PyStr.lstrip].
  - exists "". split; [reflexivity|discriminate].
  - destruct (PyStr.has_char d chars) eqn:E.
    + exists (String d pre). rewrite append_cons, <- Hs. split; [reflexivity|].
      intros c Hc. cbn [PyStr.has_char] in Hc.
      apply orb_true_iff in Hc as [Hc|Hc]; [|now apply Hpre].
      apply Ascii.eqb_eq in Hc. now subst.
    + exists "". split; [reflexivity|discriminate].
Qed.

(** X4. The categories of a slug are never an empty list, none of them
    holds a ["/"], and joined by ["/"] they give back the slug without its
    leading ["/"]s: the slug is a run of ["/"] followed by the joined
    categories, which do not start with ["/"]. *)
Theorem categories_join (slug : string) (w : world) :
  exists cats pre,
    lstrip_split (VStr slug) w = (w, Return cats)
    /\ cats <> []
    /\ Forall (fun c => PyStr.has_char "/" c = false) cats
    /\ slug = pre ++ String.concat "/" cats
    /\ (forall c, PyStr.has_char c pre = true -> c = "/"%char)
    /\ PyStr.startswith "/" (String.concat "/" cats) = false.
Proof.
  destruct (lstrip_suffix "/" slug) as (pre & Hs & Hpre).
  exists (PyStr.split "/" (PyStr.lstrip "/" slug)), pre.
  split; [reflexivity|]. split; [apply split_not_nil|].
  split; [apply split_fields|]. rewrite concat_split.
  split; [exact Hs|]. split.
  - intros c Hc. specialize (Hpre c Hc). cbn [PyStr.has_char] in Hpre.
    rewrite orb_false_r in Hpre. now apply Ascii.eqb_eq in Hpre.
  - destruct (PyStr.lstrip "/" slug) as [|c s'] eqn:E; [reflexivity|].
    apply lstrip_head in E. cbn [PyStr.has_char] in E.
    rewrite orb_false_r in E. cbn [PyStr.startswith].
    now rewrite (ascii_eqb_sym "/" c), E.
Qed.

(** ** The markdown pattern *)

Lemma star_spec (rest : string -> bool) (s : string) :
  PyPath.star rest s = true <-> exists pre suf, s = pre ++ suf /\ rest suf = true.
Proof.
  induction s as [|c s IH]; cbn [PyPath.star].
  - rewrite orb_false_r. split.
    + intros H. now exists "", "".
    + intros (pre & suf & Hs & Hr). destruct pre; [now rewrite Hs|discriminate].
  - rewrite orb_true_iff, IH. split.
    + intros [H|(pre & suf & -> & Hr)].
      * now exists "", (String c s).
      * now exists (String c pre), suf.
    + intros (pre & suf & Hs & Hr). destruct pre as [|d pre].
      * left. now rewrite Hs.
      * right. rewrite append_cons in Hs. injection Hs as -> ->. eauto.
Qed.

Lemma markdown_suffix (suf : string) :
  PyPath.fnmatch [PyPath.Lit "."; PyPath.OneOf "mM"; PyPath.OneOf "dD"] suf = true
  <-> suf ∈ MARKDOWN_SUFFIXES.
Proof.
  unfold MARKDOWN_SUFFIXES. split.
  - destruct suf as [|a [|b [|c [|d suf]]]]; cbn [PyPath.fnmatch PyStr.has_char];
      rewrite ?andb_false_r, ?orb_false_r; try discriminate.
    intros H. apply andb_true_iff in H as [Ha H].
    apply andb_true_iff in H as [Hb H]. rewrite andb_true_r in H.
    apply Ascii.eqb_eq in Ha. subst a.
    apply orb_true_iff in Hb as [Hb|Hb]; apply Ascii.eqb_eq in Hb; subst b;
      apply orb_true_iff in H as [Hc|Hc]; apply Ascii.eqb_eq in Hc; subst c;
      set_solver.
  - intros H. repeat (apply elem_of_cons in H as [->|H]; [reflexivity|]).
    now apply elem_of_nil in H.
Qed.

(** X5. The pattern of [rglob] accepts exactly the names that end in
    [.md], whatever the case of the two letters; the part before the dot
    may be empty, and nothing may follow the extension. *)
Theorem markdown_pattern (name : string) :
  PyPath.fnmatch PyPath.MARKDOWN name = true
  <-> exists base ext, name = base ++ ext /\ ext ∈ MARKDOWN_SUFFIXES.
Proof.
  unfold PyPath.MARKDOWN. cbn [PyPath.fnmatch]. rewrite star_spec.
  split; intros (base & ext & Hn & He); exists base, ext;
    (split; [exact Hn|]); now apply markdown_suffix.
Qed.

(** ** The index name *)

Lemma append_inj_l (p s t : string) : p ++ s = p ++ t -> s = t.
Proof.
  induction p as [|c p IH]; rewrite ?append_nil_l; [tauto|].
  rewrite !append_cons. intros H. injection H as H. now apply IH.
Qed.

(** X6. The index of a version is the configured name, a dash and the
    version, [None] standing for a name that is not configured; for one
    configuration two versions have the same index only if they are the
    same version. *)
Theorem index_name_injective (ALGOLIA_INDEX : option string) (v1 v2 : string) :
  (build_algolia_index_name ALGOLIA_INDEX v1
   = build_algolia_index_name ALGOLIA_INDEX v2 <-> v1 = v2)
  /\ build_algolia_index_name ALGOLIA_INDEX v1
     = match ALGOLIA_INDEX with
       | Some base => base ++ "-" ++ v1
       | None => "None-" ++ v1
       end.
Proof.
  split; [|now destruct ALGOLIA_INDEX].
  split; [|now intros ->].
  unfold build_algolia_index_name. intros H.
  now apply append_inj_l, append_inj_l in H.
Qed.

(** ** What the pipeline leaves as it is *)

Lemma evolves_refl (w : world) : evolves w w.
Proof. split; [now left|split; reflexivity]. Qed.

Lemma evolves_trans (w1 w2 w3 : world) :
  evolves w1 w2 -> evolves w2 w3 -> evolves w1 w3.
Proof.
  intros (Hd1 & Hl1 & Hp1) (Hd2 & Hl2 & Hp2). split; [|split].
  - intros p. destruct (Hd2 p) as [->| ->], (Hd1 p) as [->| ->]; auto.
    right. destruct (disk w1 !! p); cbn; [|reflexivity].
    now rewrite capped_idempotent.
  - now transitivity (log w2).
  - now transitivity (published w2).
Qed.

Lemma evolves_warn (w : world) (msg : string) : evolves w (warn w msg).
Proof.
  split; [now left|split; cbn; [now apply prefix_app_r|reflexivity]].
Qed.

Lemma evolves_publish (w : world) (name : string) (docs : list AlgoliaDoc) :
  evolves w (publish w name docs).
Proof.
  split; [now left|split; cbn; [reflexivity|now apply prefix_app_r]].
Qed.

Section Frames.

Variable frontmatter_load : list byte -> outcome page.
Variable str_validator : value -> option string.
Variable ALGOLIA_INDEX : option string.
Variable ALGOLIA_CLIENT_ID : option string.
Variable ALGOLIA_ADMIN_KEY : option string.
Variable algolia : Algolia.library.

Abbreviation get_doc := (get_algolia_doc_from_file frontmatter_load str_validator).
Abbreviation extract_docs := (extract frontmatter_load str_validator).
Abbreviation index_of := (build_index frontmatter_load str_validator ALGOLIA_INDEX
   ALGOLIA_CLIENT_ID ALGOLIA_ADMIN_KEY algolia).
Abbreviation index_each := (for_each frontmatter_load str_validator ALGOLIA_INDEX
   ALGOLIA_CLIENT_ID ALGOLIA_ADMIN_KEY algolia).
Abbreviation run := (build_indexes frontmatter_load str_validator ALGOLIA_INDEX
   ALGOLIA_CLIENT_ID ALGOLIA_ADMIN_KEY algolia).
Abbreviation index_name := (build_algolia_index_name ALGOLIA_INDEX).

(** The two ways [get_algolia_doc_from_file] ends: in the world it started
    in, with a result or an exception that is no [KeyError]; or with one
    warning logged and no document. *)
Lemma get_doc_cases (file : string) (w : world) :
  (exists r, get_doc file w = (w, r) /\ forall key, raised r <> Some (KeyError key))
  \/ (exists key, get_doc file w
                  = (warn w (warning_message file key), Return None)).
Proof.
  unfold get_algolia_doc_from_file, try_except_KeyError, bind, read_file,
    getitem, AlgoliaDoc_init, logging_warning, ret, raise, warn.
  destruct (disk w !! file) as [c|]; [|left; eexists; split; [reflexivity|discriminate]].
  destruct (frontmatter_load c) as [pg|[]];
    try (left; eexists; split; [reflexivity|discriminate]);
    [|right; eexists; reflexivity].
  destruct (truthy (get (metadata pg) "collate"));
    [left; eexists; split; [reflexivity|discriminate]|].
  destruct (metadata pg !! "slug") as [sv|]; [|right; eexists; reflexivity].
  destruct (metadata pg !! "title") as [tv|]; [|right; eexists; reflexivity].
  destruct sv; try (left; eexists; split; [reflexivity|discriminate]).
  unfold lstrip_split, ret.
  destruct (str_validator (VStr s)), (str_validator tv),
    (optional_str_validator str_validator (get (metadata pg) "description")),
    (mapM (fun c0 => str_validator (VStr c0))
       (PyStr.split "/" (PyStr.lstrip "/" s))),
    (str_validator (VStr (get_page_content (content pg))));
    left; eexists; (split; [reflexivity|discriminate]).
Qed.

Lemma get_doc_frame (file : string) (w w' : world)
    (r : outcome (option AlgoliaDoc)) :
  get_doc file w = (w', r) ->
  disk w' = disk w /\ published w' = published w
  /\ log w `prefix_of` log w'
  /\ forall key, raised r <> Some (KeyError key).
Proof.
  intros Hrun. destruct (get_doc_cases file w) as [(r0 & H & Hr)|(key & H)];
    rewrite H in Hrun; injection Hrun as <- <-.
  - split; [reflexivity|split; [reflexivity|split; [reflexivity|exact Hr]]].
  - split; [reflexivity|split; [reflexivity|split; [now apply prefix_app_r|]]].
    intros k. discriminate.
Qed.

Lemma extract_frame (files : list string) :
  forall (w w' : world) (r : outcome (list AlgoliaDoc)),
    extract_docs files w = (w', r) ->
    disk w' = disk w /\ published w' = published w
    /\ log w `prefix_of` log w'
    /\ (forall key, raised r <> Some (KeyError key))
    /\ forall docs, r = Return docs -> (length docs <= length files)%nat.
Proof.
  induction files as [|p files IH]; intros w w' r Hrun.
  - injection Hrun as <- <-.
    split; [reflexivity|split; [reflexivity|split; [reflexivity|split]]].
    + intros key. discriminate.
    + intros docs H. injection H as <-. reflexivity.
  - cbn [extract] in Hrun. unfold bind at 1 in Hrun.
    destruct (get_doc p w) as [w1 [d|e]] eqn:E1;
      apply get_doc_frame in E1 as (Hd1 & Hp1 & Hl1 & Hk1).
    + unfold bind at 1 in Hrun.
      destruct (extract_docs files w1) as [w2 [ds|e]] eqn:E2;
        destruct (IH _ _ _ E2) as (Hd2 & Hp2 & Hl2 & Hk2 & Hlen);
        injection Hrun as <- <-.
      * split; [congruence|split; [congruence|split; [|split]]].
        -- now transitivity (log w1).
        -- intros key. discriminate.
        -- intros docs H. injection H as <-. specialize (Hlen ds eq_refl).
           destruct d; cbn [length]; lia.
      * split; [congruence|split; [congruence|split; [|split]]].
        -- now transitivity (log w1).
        -- exact Hk2.
        -- intros docs. discriminate.
    + injection Hrun as <- <-.
      split; [exact Hd1|split; [exact Hp1|split; [exact Hl1|split]]].
      * exact Hk1.
      * intros docs. discriminate.
Qed.

(** Extraction over two lists in a row is extraction over their
    concatenation. *)
Lemma extract_app (l1 l2 : list string) :
  forall (w w1 w2 : world) (d1 : list AlgoliaDoc) (r2 : outcome (list AlgoliaDoc)),
    extract_docs l1 w = (w1, Return d1) ->
    extract_docs l2 w1 = (w2, r2) ->
    extract_docs (l1 ++ l2)%list w
    = (w2, match r2 with
           | Return d2 => Return (d1 ++ d2)%list
           | Raise e => Raise e
           end).
Proof.
  induction l1 as [|p l1 IH]; intros w w1 w2 d1 r2 H1 H2.
  - injection H1 as <- <-. cbn [app]. rewrite H2. now destruct r2.
  - cbn [app extract] in *. unfold bind at 1 in H1. unfold bind at 1.
    destruct (get_doc p w) as [wp [d|e]]; [|discriminate].
    unfold bind at 1 in H1. unfold bind at 1.
    destruct (extract_docs l1 wp) as [wq [ds|e]] eqn:E; [|discriminate].
    injection H1 as <- <-. rewrite (IH _ _ _ _ _ E H2).
    destruct r2 as [d2|e2]; [|reflexivity]. unfold ret. now destruct d.
Qed.

Lemma collector_evolves (version : string) (w : world) :
  exists w' results,
    collector version w = (w', Return results)
    /\ evolves w w' /\ log w' = log w /\ published w' = published w
    /\ forall p, markdown_below version p && candidate p = false ->
                 disk w' !! p = disk w !! p.
Proof.
  destruct (collector_spec version w) as (w' & results & Hrun & Hr & Hl & Hp & Hd).
  exists w', results. split; [exact Hrun|]. split; [|split; [exact Hl|split; [exact Hp|]]].
  - split; [|split; [now rewrite Hl|now rewrite Hp]].
    intros p. rewrite Hd. destruct (bool_decide (p ∈ results)); auto.
  - intros p Hp'. rewrite Hd. rewrite bool_decide_eq_false_2; [reflexivity|].
    intros Hin. apply (collector_results version w w' results p Hrun) in Hin
      as (_ & Hm & Hc). now rewrite Hm, Hc in Hp'.
Qed.

Abbreviation index_stage := (index_pages frontmatter_load str_validator
   ALGOLIA_INDEX ALGOLIA_CLIENT_ID ALGOLIA_ADMIN_KEY algolia).

(** The two ways lines 108-121 end: the objects of the index replaced
    once, when the extraction and the three calls go through; or an
    exception, in the world the extraction left, and no replacement. *)
Lemma index_pages_cases (version : string) (results : list string)
    (wc : world) :
  (exists we docs,
     extract_docs results wc = (we, Return docs)
     /\ Algolia.create algolia ALGOLIA_CLIENT_ID ALGOLIA_ADMIN_KEY = None
     /\ Algolia.init_index algolia (index_name (PyPath.name version)) = None
     /\ Algolia.replace_all_objects algolia
          (index_name (PyPath.name version)) docs = None
     /\ index_stage version results wc
        = (publish we (index_name (PyPath.name version)) docs, Return tt))
  \/ (exists we r e,
        extract_docs results wc = (we, r)
        /\ index_stage version results wc = (we, Raise e)).
Proof.
  destruct (extract_docs results wc) as [we [docs|e]] eqn:E.
  2:{ right. exists we, (Raise e), e. split; [reflexivity|].
      unfold index_pages, bind. now rewrite E. }
  destruct (Algolia.create algolia ALGOLIA_CLIENT_ID ALGOLIA_ADMIN_KEY)
    as [e|] eqn:E1.
  { right. exists we, (Return docs), e. split; [reflexivity|].
    unfold index_pages, bind. now rewrite E, E1. }
  destruct (Algolia.init_index algolia (index_name (PyPath.name version)))
    as [e|] eqn:E2.
  { right. exists we, (Return docs), e. split; [reflexivity|].
    unfold index_pages, bind. now rewrite E, E1, E2. }
  destruct (Algolia.replace_all_objects algolia
              (index_name (PyPath.name version)) docs)
    as [e|] eqn:E3.
  { right. exists we, (Return docs), e. split; [reflexivity|].
    unfold index_pages, bind. now rewrite E, E1, E2, E3. }
  left. exists we, docs. split; [reflexivity|].
  split; [reflexivity|]. split; [reflexivity|]. split; [exact E3|].
  unfold index_pages, bind. now rewrite E, ?E1, ?E2, E3.
Qed.

Lemma build_index_frame (version : string) (w w' : world) (r : outcome unit) :
  index_of version w = (w', r) ->
  evolves w w'
  /\ (forall p, markdown_below version p && candidate p = false ->
                disk w' !! p = disk w !! p)
  /\ (r = Return tt ->
      exists docs, published w'
                   = (published w ++ [(index_name (PyPath.name version), docs)])%list)
  /\ (forall e, r = Raise e -> published w' = published w).
Proof.
  intros Hrun.
  destruct (collector_evolves version w)
    as (wc & results & Hcol & Hev & Hlc & Hpc & Hdc).
  unfold build_index in Hrun. unfold bind at 1 in Hrun. rewrite Hcol in Hrun.
  destruct (index_pages_cases version results wc)
    as [(we & docs & Hext & _ & _ & _ & Hidx)|(we & r' & e & Hext & Hidx)];
    rewrite Hidx in Hrun; injection Hrun as <- <-;
    apply extract_frame in Hext as (Hde & Hpe & Hle & _).
  - assert (Hwe : evolves wc we).
    { split; [intros p; left; now rewrite Hde|split; [exact Hle|now rewrite Hpe]]. }
    split; [|split; [|split; [|intros e; discriminate]]].
    + eapply evolves_trans; [exact Hev|]. eapply evolves_trans; [exact Hwe|].
      apply evolves_publish.
    + intros p Hp. cbn. rewrite Hde. now apply Hdc.
    + intros _. exists docs. cbn. now rewrite Hpe, Hpc.
  - split; [|split; [|split; [discriminate|]]].
    + eapply evolves_trans; [exact Hev|].
      split; [intros p; left; now rewrite Hde|split; [exact Hle|now rewrite Hpe]].
    + intros p Hp. rewrite Hde. now apply Hdc.
    + intros _ _. now rewrite Hpe, Hpc.
Qed.

Lemma for_each_frame (versions : list string) :
  forall (w w' : world) (r : outcome unit),
    index_each versions w = (w', r) ->
    evolves w w'
    /\ (r = Return tt ->
        (published w').*1
        = ((published w).*1
           ++ List.map (fun v => index_name (PyPath.name v)) versions)%list).
Proof.
  induction versions as [|v versions IH]; intros w w' r Hrun.
  - injection Hrun as <- <-. split; [apply evolves_refl|].
    intros _. cbn. now rewrite app_nil_r.
  - cbn [for_each] in Hrun. unfold bind at 1 in Hrun.
    destruct (index_of v w) as [w1 [[]|e]] eqn:E;
      apply build_index_frame in E as (Hev & _ & Hpub & _).
    + destruct (IH _ _ _ Hrun) as (Hev2 & Hpub2).
      split; [now apply evolves_trans with w1|].
      intros Hr. destruct (Hpub eq_refl) as [docs Hd].
      rewrite (Hpub2 Hr), Hd, fmap_app. cbn. now rewrite <- app_assoc.
    + injection Hrun as <- <-. split; [exact Hev|discriminate].
Qed.

Lemma run_frame (w w' : world) (r : outcome unit) :
  run w = (w', r) ->
  exists versions,
    glob "content" PyPath.VERSION w = (w, Return versions)
    /\ evolves w w'
    /\ (r = Return tt ->
        (published w').*1
        = ((published w).*1
           ++ List.map (fun v => index_name (PyPath.name v)) versions)%list).
Proof.
  unfold build_indexes, bind. intros Hrun. eexists. split; [reflexivity|].
  cbn [glob] in Hrun. now apply for_each_frame.
Qed.

End Frames.

Lemma capped_cases (c : list byte) :
  capped c = c
  \/ (100000 < Z.of_nat (length c))%Z /\ capped c = take (Z.to_nat 100000) c.
Proof.
  unfold capped. destruct (Z.gtb_spec (Z.of_nat (length c)) 100000) as [H|H].
  - right. split; [lia|]. apply truncated_long. lia.
  - now left.
Qed.

Lemma world_eq (w1 w2 : world) :
  disk w1 = disk w2 -> log w1 = log w2 -> published w1 = published w2 ->
  w1 = w2.
Proof. destruct w1, w2. cbn. now intros -> -> ->. Qed.

(** A version without a candidate: the collector changes nothing. *)
Lemma collector_nothing (version : string) (w : world) :
  (forall p, is_Some (disk w !! p) -> markdown_below version p = true ->
             candidate p = false) ->
  collector version w = (w, Return []).
Proof.
  intros Hnone.
  destruct (collector_spec version w) as (w' & results & Hrun & _ & Hl & Hp & Hd).
  assert (Hres : results = []).
  { destruct results as [|p results]; [reflexivity|].
    assert (Hin : p ∈ p :: results) by now left.
    apply (collector_results version w w' _ p Hrun) in Hin as (Hs & Hm & Hc).
    rewrite (Hnone p Hs Hm) in Hc. discriminate. }
  subst results. rewrite Hrun. f_equal. apply world_eq; try assumption.
  apply map_eq. intros p. rewrite (Hd p). rewrite bool_decide_eq_false_2; [reflexivity|].
  apply not_elem_of_nil.
Qed.

(** ** Further properties of the pipeline *)

Section PipelineProperties.

Variable frontmatter_load : list byte -> outcome page.
Variable str_validator : value -> option string.
Variable ALGOLIA_INDEX : option string.
Variable ALGOLIA_CLIENT_ID : option string.
Variable ALGOLIA_ADMIN_KEY : option string.
Variable algolia : Algolia.library.

Abbreviation get_doc := (get_algolia_doc_from_file frontmatter_load str_validator).
Abbreviation extract_docs := (extract frontmatter_load str_validator).
Abbreviation index_of := (build_index frontmatter_load str_validator ALGOLIA_INDEX
   ALGOLIA_CLIENT_ID ALGOLIA_ADMIN_KEY algolia).
Abbreviation run := (build_indexes frontmatter_load str_validator ALGOLIA_INDEX
   ALGOLIA_CLIENT_ID ALGOLIA_ADMIN_KEY algolia).
Abbreviation index_name := (build_algolia_index_name ALGOLIA_INDEX).

(** X7. No [KeyError] leaves [get_algolia_doc_from_file], whatever raised
    it inside the [try]: a missing key or the front-matter library. So none
    leaves the extraction of a list of pages either. *)
Theorem key_error_never_escapes (file : string) (results : list string)
    (w : world) (key : string) :
  raised (get_doc file w).2 <> Some (KeyError key)
  /\ raised (extract_docs results w).2 <> Some (KeyError key).
Proof.
  split.
  - destruct (get_doc file w) as [w' r] eqn:E.
    now apply get_doc_frame in E as (_ & _ & _ & Hk).
  - destruct (extract_docs results w) as [w' r] eqn:E.
    now apply extract_frame in E as (_ & _ & _ & Hk & _).
Qed.

(** X8. [get_algolia_doc_from_file] never writes to the disk and never
    replaces an index; it logs nothing, or it logs one warning for the
    file and then returns no document. *)
Theorem extractor_frame (file : string) (w : world) :
  disk (get_doc file w).1 = disk w
  /\ published (get_doc file w).1 = published w
  /\ (log (get_doc file w).1 = log w
      \/ exists key,
           log (get_doc file w).1 = (log w ++ [warning_message file key])%list
           /\ (get_doc file w).2 = Return None).
Proof.
  destruct (get_doc_cases frontmatter_load str_validator file w)
    as [(r & -> & _)|(key & ->)]; cbn.
  - split; [reflexivity|split; [reflexivity|now left]].
  - split; [reflexivity|split; [reflexivity|right; eauto]].
Qed.

(** X9. For a page that can be read and parsed, a document is returned in
    exactly one case: no truthy [collate], a string [slug], a [title] and a
    [description] that validation accepts. The document then has the slug
    as its [objectID], the validated title and description, the split slug
    as its categories and the cleaned body as its content, and the world is
    left as it was. *)
Theorem document_produced_iff (file : string) (w w' : world) (c : list byte)
    (pg : page) (doc : AlgoliaDoc) :
  (forall s, str_validator (VStr s) = Some s) ->
  disk w !! file = Some c ->
  frontmatter_load c = Return pg ->
  get_doc file w = (w', Return (Some doc))
  <-> w' = w
      /\ truthy (get (metadata pg) "collate") = false
      /\ exists slug tv t d,
           metadata pg !! "slug" = Some (VStr slug)
           /\ metadata pg !! "title" = Some tv
           /\ str_validator tv = Some t
           /\ optional_str_validator str_validator
                (get (metadata pg) "description") = Some d
           /\ doc = {| objectID := slug; title := t; description := d;
                       categories := PyStr.split "/" (PyStr.lstrip "/" slug);
                       doc_content := get_page_content (content pg) |}.
Proof.
  intros Hstr Hdisk Hload. split.
  - unfold get_algolia_doc_from_file, try_except_KeyError, bind, read_file,
      getitem, AlgoliaDoc_init, logging_warning, ret, raise.
    rewrite Hdisk, Hload.
    destruct (truthy (get (metadata pg) "collate")); [discriminate|].
    destruct (metadata pg !! "slug") as [sv|]; [|discriminate].
    destruct (metadata pg !! "title") as [tv|]; [|discriminate].
    destruct sv as [| | |slug| | | |]; try discriminate.
    unfold lstrip_split, ret.
    rewrite !Hstr, (validate_categories _ Hstr).
    destruct (str_validator tv) as [t|] eqn:Hval; [|discriminate].
    destruct (optional_str_validator str_validator
                (get (metadata pg) "description")) as [d|]; [|discriminate].
    intros H. injection H as <- <-.
    split; [reflexivity|]. split; [reflexivity|].
    exists slug, tv, t, d. auto 10.
  - intros (-> & Hflag & slug & tv & t & d & Hslug & Htitle & Hval & Hdesc & ->).
    now apply (get_doc_success _ _ _ _ c pg Hdisk Hload Hflag Hstr slug t tv d).
Qed.

(** X10. Extraction composes: the documents of two lists of pages
    extracted one after the other are the documents of their
    concatenation, in the same order, and a list of pages never yields
    more documents than it has pages. *)
Theorem extract_concatenation (l1 l2 : list string) (w w1 w2 : world)
    (d1 d2 : list AlgoliaDoc) :
  extract_docs l1 w = (w1, Return d1) ->
  extract_docs l2 w1 = (w2, Return d2) ->
  extract_docs (l1 ++ l2)%list w = (w2, Return (d1 ++ d2)%list)
  /\ (length d1 <= length l1)%nat
  /\ (length (d1 ++ d2) <= length (l1 ++ l2))%nat.
Proof.
  intros H1 H2. split.
  - now rewrite (extract_app _ _ l1 l2 w w1 w2 d1 (Return d2) H1 H2).
  - apply extract_frame in H1 as (_ & _ & _ & _ & Hlen1).
    apply extract_frame in H2 as (_ & _ & _ & _ & Hlen2).
    specialize (Hlen1 d1 eq_refl). specialize (Hlen2 d2 eq_refl).
    rewrite !length_app. lia.
Qed.

(** X11. [build_index] replaces the index of its version once, with the
    name built from the last component of the directory, or it raises and
    replaces nothing; it replaces no other index either way. *)
Theorem build_index_all_or_nothing (version : string) (w : world) :
  ((index_of version w).2 = Return tt
   /\ exists docs,
        published (index_of version w).1
        = (published w ++ [(index_name (PyPath.name version), docs)])%list)
  \/ (exists e, (index_of version w).2 = Raise e
                /\ published (index_of version w).1 = published w).
Proof.
  destruct (index_of version w) as [w' [[]|e]] eqn:E;
    apply build_index_frame in E as (_ & _ & Hok & Hko); cbn.
  - left. split; [reflexivity|]. now apply Hok.
  - right. exists e. split; [reflexivity|]. now apply (Hko e).
Qed.

(** X12. When nothing below a version is a candidate (no file and no
    directory has a markdown name, or only excluded ones have) and the
    three calls into the client library go through, [build_index] still
    replaces the index of the version: by the empty list of documents, with
    nothing else changed. The directories are part of the hypothesis
    because [rglob] yields a directory whose name matches the pattern as it
    yields a file. *)
Theorem build_index_without_candidate (version : string) (w : world) :
  (forall p, is_Some (disk w !! p) \/ directory w p ->
             markdown_below version p = true -> candidate p = false) ->
  Algolia.create algolia ALGOLIA_CLIENT_ID ALGOLIA_ADMIN_KEY = None ->
  Algolia.init_index algolia (index_name (PyPath.name version)) = None ->
  Algolia.replace_all_objects algolia (index_name (PyPath.name version)) []
  = None ->
  index_of version w
  = (publish w (index_name (PyPath.name version)) [], Return tt).
Proof.
  intros Hnone Hcreate Hinit Hreplace. unfold build_index, bind.
  rewrite (collector_nothing version w (fun p Hp => Hnone p (or_introl Hp))).
  unfold index_pages, bind. cbn [extract ret].
  now rewrite Hcreate, Hinit, Hreplace.
Qed.

(** X13. On a tree of regular files without links, where a path is the
    only way to its bytes, [build_index] leaves every file that is not a
    candidate of its version as it is, on success and on failure: files of
    other versions, files that are not markdown and excluded files are
    never truncated. *)
Theorem build_index_isolated (version : string) (w : world) (p : string) :
  PyPath.below version p = false
  \/ PyPath.fnmatch PyPath.MARKDOWN (PyPath.name p) = false
  \/ candidate p = false ->
  disk (index_of version w).1 !! p = disk w !! p.
Proof.
  intros Hp. destruct (index_of version w) as [w' r] eqn:E.
  apply build_index_frame in E as (_ & Hiso & _). cbn. apply Hiso.
  unfold markdown_below. destruct Hp as [-> | [-> | ->]];
    rewrite ?andb_false_r; reflexivity.
Qed.

(** X14. The collector is idempotent: a second pass over the same version
    collects the same files and changes nothing, so running the script
    again never shortens a file further. *)
Theorem collector_idempotent (version : string) (w w1 : world)
    (r1 : list string) :
  collector version w = (w1, Return r1) ->
  exists r2, collector version w1 = (w1, Return r2)
             /\ forall p, p ∈ r2 <-> p ∈ r1.
Proof.
  intros Hrun1.
  destruct (collector_spec version w) as (w1' & r1' & Hrun1' & _ & _ & _ & Hd1).
  rewrite Hrun1 in Hrun1'. injection Hrun1' as <- <-.
  destruct (collector_spec version w1) as (w2 & r2 & Hrun2 & _ & Hl2 & Hp2 & Hd2).
  assert (Hmem : forall p, p ∈ r2 <-> p ∈ r1).
  { intros p.
    rewrite (collector_results version w1 w2 r2 p Hrun2),
            (collector_results version w w1 r1 p Hrun1).
    assert (Hsome : is_Some (disk w1 !! p) <-> is_Some (disk w !! p)).
    { rewrite (Hd1 p). destruct (bool_decide (p ∈ r1)); [|reflexivity].
      apply fmap_is_Some. }
    tauto. }
  exists r2. split; [|exact Hmem].
  rewrite Hrun2. f_equal. apply world_eq; [|exact Hl2|exact Hp2].
  apply map_eq. intros p. rewrite (Hd2 p).
  destruct (bool_decide (p ∈ r2)) eqn:E; [|reflexivity].
  apply bool_decide_eq_true in E. apply Hmem in E.
  rewrite (Hd1 p), bool_decide_eq_true_2 by exact E.
  destruct (disk w !! p); cbn; [|reflexivity]. now rewrite capped_idempotent.
Qed.

(** X15. Whatever the run does and however it ends, it creates no file
    and deletes none, every file holds what it held or, if that was more
    than 100,000 bytes, its first 100,000 bytes, and the log and the list
    of index replacements are only extended. *)
Theorem run_preserves_files (w : world) :
  dom (disk (run w).1) = dom (disk w)
  /\ (forall p c', disk (run w).1 !! p = Some c' ->
        exists c, disk w !! p = Some c
                  /\ (c' = c
                      \/ (100000 < Z.of_nat (length c))%Z
                         /\ c' = take (Z.to_nat 100000) c))
  /\ log w `prefix_of` log (run w).1
  /\ published w `prefix_of` published (run w).1.
Proof.
  destruct (run w) as [w' r] eqn:E.
  apply run_frame in E as (versions & _ & (Hd & Hl & Hp) & _). cbn.
  split; [|split; [|split; assumption]].
  - apply set_eq. intros p. rewrite !elem_of_dom.
    destruct (Hd p) as [->| ->]; [tauto|]. now rewrite fmap_is_Some.
  - intros p c' Hc'. destruct (Hd p) as [H|H]; rewrite H in Hc'.
    + eauto.
    + destruct (disk w !! p) as [c|]; [|discriminate]. injection Hc' as <-.
      exists c. split; [reflexivity|].
      destruct (capped_cases c) as [->|[Hlen ->]]; auto.
Qed.

(** X16. A run that ends normally has replaced one index per version
    directory, in the order of the directories, each under the name built
    from the name of its directory. *)
Theorem run_publishes_each_version (w w' : world) :
  run w = (w', Return tt) ->
  exists versions,
    glob "content" PyPath.VERSION w = (w, Return versions)
    /\ (published w').*1
       = ((published w).*1
          ++ List.map (fun v => index_name (PyPath.name v)) versions)%list.
Proof.
  intros Hrun. apply run_frame in Hrun as (versions & Hglob & _ & Hpub).
  exists versions. split; [exact Hglob|]. now apply Hpub.
Qed.

End PipelineProperties.

(** ** Names and stems *)

Lemma split_no_sep (sep : ascii) (s : string) :
  PyStr.has_char sep s = false -> PyStr.split sep s = [s].
Proof.
  induction s as [|c s IH]; [reflexivity|]. cbn [PyStr.has_char PyStr.split].
  intros H. apply orb_false_iff in H as [Hc Hs].
  now rewrite (ascii_eqb_sym c sep), Hc, (IH Hs).
Qed.

Lemma last_cons_cons {A : Type} (x y : A) (l : list A) (d : A) :
  List.last (x :: y :: l) d = List.last (y :: l) d.
Proof. reflexivity. Qed.

(** The name of a path that ends in a component without separator. *)
Lemma name_append (dir n : string) :
  PyStr.has_char "/" n = false -> PyPath.name (dir ++ String "/" n) = n.
Proof.
  intros Hn. unfold PyPath.name. induction dir as [|c dir IH].
  - rewrite append_nil_l. cbn [PyStr.split]. rewrite Ascii.eqb_refl.
    now rewrite (split_no_sep _ _ Hn).
  - rewrite append_cons.
    assert (Hlen : exists f g gs,
              PyStr.split "/" (dir ++ String "/" n) = f :: g :: gs).
    { pose proof (concat_split "/" (dir ++ String "/" n)) as Hcat.
      pose proof (split_fields "/" (dir ++ String "/" n)) as Hf.
      destruct (PyStr.split "/" (dir ++ String "/" n)) as [|f [|g gs]] eqn:E;
        [now destruct (split_not_nil "/" (dir ++ String "/" n))| |eauto].
      cbn [String.concat] in Hcat. subst f. inversion Hf as [|? ? Hno _]; subst.
      rewrite has_char_append in Hno. cbn [PyStr.has_char] in Hno.
      rewrite Ascii.eqb_refl, orb_true_r in Hno. discriminate. }
    destruct Hlen as (f & g & gs & E). rewrite E in IH.
    cbn [PyStr.split]. rewrite E. destruct (Ascii.eqb c "/"); exact IH.
Qed.

Lemma rfind_absent (c : ascii) (s : string) :
  PyStr.has_char c s = false -> PyStr.rfind c s = (-1)%Z.
Proof.
  induction s as [|d s IH]; [reflexivity|]. cbn [PyStr.has_char PyStr.rfind].
  intros H. apply orb_false_iff in H as [Hd Hs].
  rewrite (IH Hs), (ascii_eqb_sym d c), Hd. reflexivity.
Qed.

Lemma rfind_last (c : ascii) (base ext : string) :
  PyStr.has_char c ext = false ->
  PyStr.rfind c (base ++ String c ext) = Z.of_nat (String.length base).
Proof.
  intros Hext. induction base as [|d base IH].
  - rewrite append_nil_l. cbn [PyStr.rfind].
    now rewrite (rfind_absent _ _ Hext), Ascii.eqb_refl.
  - rewrite append_cons. cbn [PyStr.rfind String.length]. rewrite IH.
    destruct (Z.leb_spec 0 (Z.of_nat (String.length base))); lia.
Qed.

Lemma prefix_append (base rest : string) :
  PyStr.prefix (String.length base) (base ++ rest) = base.
Proof.
  induction base as [|c base IH]; [reflexivity|].
  rewrite append_cons. cbn [String.length PyStr.prefix]. now rewrite IH.
Qed.

(** The stem of [dir/base.ext]. *)
Lemma stem_of_path (dir base ext : string) :
  base <> "" -> ext <> "" ->
  PyStr.has_char "/" base = false ->
  PyStr.has_char "/" ext = false ->
  PyStr.has_char "." ext = false ->
  PyPath.stem (dir ++ String "/" (base ++ String "." ext)) = base.
Proof.
  intros Hb He Hsb Hse Hde. unfold PyPath.stem.
  rewrite name_append.
  2:{ rewrite has_char_append, Hsb. cbn [PyStr.has_char]. now rewrite Hse. }
  rewrite (rfind_last _ _ _ Hde), length_append. cbn [String.length].
  destruct base as [|b base]; [congruence|].
  destruct ext as [|e ext]; [congruence|]. cbn [String.length].
  destruct (Z.ltb_spec 0 (Z.of_nat (S (String.length base)))); [|lia].
  destruct (Z.ltb_spec (Z.of_nat (S (String.length base)))
              (Z.of_nat (S (String.length base) + S (S (String.length ext))) - 1));
    [|lia].
  cbn [andb]. rewrite Nat2Z.id.
  change (S (String.length base)) with (String.length (String b base)).
  apply prefix_append.
Qed.

Lemma markdown_suffix_shape (ext : string) :
  ext ∈ MARKDOWN_SUFFIXES ->
  exists e, ext = String "." e /\ e <> "" /\ PyStr.has_char "/" e = false
            /\ PyStr.has_char "." e = false.
Proof.
  unfold MARKDOWN_SUFFIXES. intros H.
  repeat (apply elem_of_cons in H as [->|H];
          [eexists; split; [reflexivity|split; [discriminate|split; reflexivity]]|]).
  now apply elem_of_nil in H.
Qed.

(** X17. A markdown file called [menu] or [gdpr-banner] is left out in
    whatever directory it lies and whatever the case of its extension. *)
Theorem excluded_names_anywhere (version : string) (w w' : world)
    (results : list string) (dir base ext : string) :
  collector version w = (w', Return results) ->
  base ∈ EXCLUDED_FILES ->
  ext ∈ MARKDOWN_SUFFIXES ->
  PyPath.stem (dir ++ "/" ++ base ++ ext) = base
  /\ dir ++ "/" ++ base ++ ext ∉ results.
Proof.
  intros Hrun Hbase Hext.
  destruct (markdown_suffix_shape ext Hext) as (e & -> & He & Hse & Hde).
  assert (Hstem : PyPath.stem (dir ++ "/" ++ base ++ String "." e) = base).
  { unfold EXCLUDED_FILES in Hbase.
    repeat (apply elem_of_cons in Hbase as [->|Hbase];
            [apply stem_of_path; [discriminate|exact He|reflexivity|exact Hse|exact Hde]|]).
    now apply elem_of_nil in Hbase. }
  split; [exact Hstem|]. intros Hin.
  apply (collector_results version w w' results _ Hrun) in Hin as (_ & _ & Hc).
  apply candidate_stem in Hc. now rewrite Hstem in Hc.
Qed.

(** A directory above a path is one of its [parents]. *)
Lemma below_parents (d : string) :
  forall p, PyPath.below d p = true -> In d (parents p).
Proof.
  unfold PyPath.below. induction d as [|c d IH]; intros p Hp.
  - rewrite append_nil_l in Hp. destruct p as [|b p]; [discriminate|].
    cbn [PyStr.startswith] in Hp. apply andb_true_iff in Hp as [Hb _].
    apply Ascii.eqb_eq in Hb as <-. cbn [parents].
    rewrite Ascii.eqb_refl. now left.
  - rewrite append_cons in Hp. destruct p as [|b p]; [discriminate|].
    cbn [PyStr.startswith] in Hp. apply andb_true_iff in Hp as [Hb Hp].
    apply Ascii.eqb_eq in Hb as <-. cbn [parents].
    apply in_or_app. right. apply in_map. now apply IH.
Qed.

(** In [only_menu] nothing below the version is a candidate: the page is
    excluded by its name and no directory has a markdown name. *)
Lemma only_menu_no_candidate (p : string) :
  is_Some (disk only_menu !! p) \/ directory only_menu p ->
  markdown_below "content/v1.0.0" p = true -> candidate p = false.
Proof.
  intros [[c Hc]|(q & [c Hc] & Hq)] Hm;
    unfold only_menu, SampleWorlds.single in Hc; cbn [disk] in Hc;
    apply lookup_singleton_Some in Hc as [<- _].
  - vm_compute. reflexivity.
  - apply below_parents in Hq. vm_compute in Hq.
    destruct Hq as [<-|[<-|[]]]; vm_compute in Hm; discriminate Hm.
Qed.

(** ** The further properties on the sample worlds *)

Section MoreExamples.

Abbreviation load := Sample.load.
Abbreviation strict := Sample.strict_str.
Abbreviation DOCS := (Some "DOCS").
Abbreviation APP := (Some "APP").
Abbreviation KEY := (Some "KEY").

Ltac evaluate := vm_compute; reflexivity.

Lemma get_page_content_no_span_witness :
  get_page_content "# 1 > 0 <br" = discard newline_or_hash "# 1 > 0 <br".
Proof. apply (get_page_content_no_span "# 1 > 0 <br"). evaluate. Defined.

Lemma document_produced_iff_witness :
  get_algolia_doc_from_file load strict "content/v1.0.0/c.md"
    SampleWorlds.nested
  = (SampleWorlds.nested,
     Return (Some {| objectID := "/a/b/c"; title := "C"; description := None;
                     categories := ["a"; "b"; "c"]; doc_content := "body" |})).
Proof.
  apply (proj2 (document_produced_iff load strict
                  "content/v1.0.0/c.md" SampleWorlds.nested SampleWorlds.nested
                  (Sample.file ["---"; "slug: /a/b/c"; "title: C"; "---"; "body"])
                  {| metadata := {[ "slug" := VStr "/a/b/c"; "title" := VStr "C" ]};
                     content := "body" |}
                  _
                  ltac:(reflexivity) ltac:(evaluate) ltac:(evaluate))).
  split; [reflexivity|]. split; [evaluate|].
  exists "/a/b/c", (VStr "C"), "C", None.
  split; [evaluate|]. split; [evaluate|]. split; [evaluate|].
  split; evaluate.
Defined.

Lemma extract_concatenation_witness :
  extract load strict
    (["content/v1.0.0/untitled.md"] ++ ["content/v1.0.0/intro.md"])%list
    Sample.start
  = (warn Sample.start
       (warning_message "content/v1.0.0/untitled.md" "title"),
     Return ([] ++ [{| objectID := "/docs/intro"; title := "Intro";
                       description := None; categories := ["docs"; "intro"];
                       doc_content := " Hello worldtext" |}])%list).
Proof.
  refine (proj1 (extract_concatenation load strict _ _ _
            (warn Sample.start
               (warning_message "content/v1.0.0/untitled.md" "title"))
            _ _ _ _ _)); evaluate.
Defined.

Lemma build_index_without_candidate_witness :
  build_index load strict DOCS APP KEY Sample.service "content/v1.0.0" only_menu
  = (publish only_menu "DOCS-v1.0.0" [], Return tt).
Proof.
  apply (build_index_without_candidate load strict DOCS APP KEY Sample.service
           "content/v1.0.0" only_menu only_menu_no_candidate);
    reflexivity.
Defined.

Lemma build_index_isolated_witness :
  disk (build_index load strict DOCS APP KEY Sample.service "content/v1.0.0"
          SampleWorlds.broken).1
    !! "content/v2.0.0/broken.md"
  = disk SampleWorlds.broken !! "content/v2.0.0/broken.md".
Proof.
  apply (build_index_isolated load strict DOCS APP KEY Sample.service).
  left. evaluate.
Defined.

Lemma collector_idempotent_witness :
  exists r2,
    collector "content/v1.0.0" Sample.start = (Sample.start, Return r2)
    /\ forall p,
         p ∈ r2
         <-> p ∈ ["content/v1.0.0/untitled.md"; "content/v1.0.0/internal.md";
                  "content/v1.0.0/intro.md"].
Proof.
  apply (collector_idempotent "content/v1.0.0" Sample.start). evaluate.
Defined.

Lemma run_publishes_each_version_witness :
  exists versions,
    glob "content" PyPath.VERSION Sample.start = (Sample.start, Return versions)
    /\ (published (build_indexes load strict DOCS APP KEY Sample.service
                     Sample.start).1).*1
       = ((published Sample.start).*1
          ++ List.map (fun v => build_algolia_index_name DOCS (PyPath.name v))
               versions)%list.
Proof.
  apply (run_publishes_each_version load strict DOCS APP KEY Sample.service).
  evaluate.
Defined.

Lemma excluded_names_anywhere_witness :
  PyPath.stem ("content/v1.0.0/guides" ++ "/" ++ "menu" ++ ".MD") = "menu"
  /\ "content/v1.0.0/guides" ++ "/" ++ "menu" ++ ".MD"
     ∉ ["content/v1.0.0/untitled.md"; "content/v1.0.0/internal.md";
        "content/v1.0.0/intro.md"].
Proof.
  apply (excluded_names_anywhere "content/v1.0.0" Sample.start Sample.start).
  - evaluate.
  - apply list_elem_of_In. vm_compute. tauto.
  - apply list_elem_of_In. vm_compute. tauto.
Defined.

End MoreExamples.
